(** * Gasless-voting relayer: the [/submit-vote] handler and its
      confirmation monitor (relayer-service/server.js)

    The handler is an async JavaScript function that talks to a ledger
    through ethers.js.  It is embedded as a function that threads the
    history of the effects performed so far (ledger calls and timers) and
    returns the HTTP response together with the extended history.  The
    ledger is a record of oracles; each oracle sees the history that
    precedes the call, so a ledger may answer differently over time.

    The two probes of the same file ([/status], [/wallet-info]) and the
    browser client that posts the votes (src/hooks.js) are embedded the
    same way, further down. *)

From Stdlib Require Import ZArith List String Ascii Bool Arith Lia.
From Stdlib Require Import DecimalString.
From Equations Require Import Equations.
Import ListNotations.
Local Open Scope string_scope.
Local Open Scope Z_scope.
Local Open Scope list_scope.

(** ** Values of the JSON request body *)

Module Js.

(** What [bodyParser.json()] can put in a field of [req.body].  A field
    that is absent destructures to [undefined].  [JNumber] carries the
    integer-valued numbers; [JFraction] stands for any number with a
    fractional part (never zero, never an integer). *)
#[warnings="-register-all"]
Inductive JsValue : Type :=
| JUndefined
| JNull
| JBool (b : bool)
| JNumber (n : Z)
| JFraction
| JString (s : string)
| JArray (items : list JsValue)
| JObject (fields : list (string * JsValue)).

(** JavaScript truthiness, as used by [!x]. *)
Definition truthy (v : JsValue) : bool :=
  match v with
  | JUndefined | JNull => false
  | JBool b => b
  | JNumber n => negb (n =? 0)
  | JFraction => true
  | JString s => negb (String.eqb s "")
  | JArray _ | JObject _ => true
  end.

(** [x === undefined] *)
Definition is_undefined (v : JsValue) : bool :=
  match v with
  | JUndefined => true
  | _ => false
  end.

(** A thrown JavaScript error is kept as its [message]. *)
Inductive Result (A : Type) : Type :=
| Ok (a : A)
| Throw (msg : string).
Arguments Ok {A} a.
Arguments Throw {A} msg.

(** [String.prototype.includes] *)
Fixpoint includes (s sub : string) : bool :=
  String.prefix sub s ||
  match s with
  | EmptyString => false
  | String _ rest => includes rest sub
  end.

(** [String.prototype.toLowerCase] on the ASCII range, which is all an
    account address contains. *)
Definition lower_ascii (c : ascii) : ascii :=
  let n := nat_of_ascii c in
  if ((65 <=? n) && (n <=? 90))%nat then ascii_of_nat (n + 32) else c.

Fixpoint lower (s : string) : string :=
  match s with
  | EmptyString => EmptyString
  | String c rest => String (lower_ascii c) (lower rest)
  end.

(** [v.toLowerCase()]: a [TypeError] unless [v] is a string. *)
Definition toLowerCase (v : JsValue) : Result string :=
  match v with
  | JString s => Ok (lower s)
  | _ => Throw "voter.toLowerCase is not a function"
  end.

End Js.
Export Js.

(** ** Ledger data *)

(** [ethers.utils.parseUnits(n, "gwei")] *)
Definition gwei (n : Z) : Z := n * 10 ^ 9.

(** The tuple returned by [contract.getPollDetails]. *)
Record PollDetails : Type := mkPoll {
  title : string;
  creator : string;
  endTime : Z;
  candidateCount : Z;
  isPublic : bool;
  voterCount : Z;
  maxVoters : Z
}.

(** Transaction options passed as the last argument of [contract.metaVote]. *)
Record Overrides : Type := mkOverrides {
  gasLimit : Z;
  maxFeePerGas : Z;
  maxPriorityFeePerGas : Z;
  nonce : option Z
}.

(** What the code reads of a transaction object. *)
Record Tx : Type := mkTx {
  hash : string;
  tx_nonce : Z
}.

(** What the code reads of a receipt. *)
Record Receipt : Type := mkReceipt {
  receipt_status : Z;
  gasUsed : Z;
  blockNumber : Z
}.

(** Outcome of the race between [tx.wait(1)] and the 10 s timer in
    [verifyConfirmation]. *)
Inductive WaitOutcome : Type :=
| WaitConfirmed (r : Receipt)
| WaitFailed (msg : string)
| WaitTimeout.

(** The effects of the handler, in the order in which it starts them. *)
Inductive Event : Type :=
| EGetPollDetails (pollId : Z)
| EHasVoted (pollId : Z) (voter : JsValue)
| EGetBalance (address : string)
| EMetaVote (pollId candidateId : Z) (voter merkleProof signature : JsValue)
            (options : Overrides)
| ETxWait (txHash : string)
| EGetTransactionReceipt (txHash : string)
| EGetTransaction (txHash : string)
| ESetTimeout (ms : Z).

Definition History : Type := list Event.

(** The ledger behind [provider], [wallet] and [contract]. *)
Record Ledger : Type := mkLedger {
  wallet_address : string;
  getPollDetails : History -> Z -> Result PollDetails;
  hasVoted : History -> Z -> JsValue -> Result bool;
  getBalance : History -> string -> Result Z;
  metaVote : History -> Z -> Z -> JsValue -> JsValue -> JsValue -> Overrides ->
             Result Tx;
  tx_wait : History -> string -> WaitOutcome;
  getTransactionReceipt : History -> string -> Result (option Receipt);
  getTransaction : History -> string -> Result (option Tx)
}.

(** ** Request and response *)

Record Request : Type := mkRequest {
  pollId : JsValue;
  candidateId : JsValue;
  voter : JsValue;
  signature : JsValue;
  merkleProof : JsValue
}.

(** [`vote-${Date.now()}-${Math.floor(Math.random() * 10000)}`] *)
Record RequestId : Type := mkRequestId {
  stamp : Z;
  salt : Z
}.

(** The extra fields of the success body. *)
Record Submitted : Type := mkSubmitted {
  txHash : string;
  echo_pollId : JsValue;
  echo_candidateId : JsValue;
  requestId : RequestId
}.

Record Response : Type := mkResponse {
  status : Z;
  success : bool;
  message : string;
  error : option string;
  submitted : option Submitted
}.

Definition failure (code : Z) (msg : string) : Response :=
  mkResponse code false msg None None.

Definition failure_with (code : Z) (msg err : string) : Response :=
  mkResponse code false msg (Some err) None.

Definition accepted (tx : Tx) (req : Request) (rid : RequestId) : Response :=
  mkResponse 200 true "Vote submitted successfully" None
    (Some (mkSubmitted (hash tx) (pollId req) (candidateId req) rid)).

(** The replies of the handler, one per [res.status(..).json(..)]. *)
Definition missing_parameters : Response :=
  failure 400 "Missing required parameters: pollId, candidateId, voter, signature".
Definition invalid_format (msg : string) : Response :=
  failure 400 (String.append "Invalid parameters format: " msg).
Definition invalid_candidate : Response :=
  failure 400 "Invalid candidate ID".
Definition already_voted : Response :=
  failure 400 "Voter has already voted in this poll".
Definition voter_status_failed : Response :=
  failure 500 "Failed to check voter status".
Definition relayer_underfunded : Response :=
  failure 400 "Relayer service wallet needs more funds. Please try again later or contact the administrator.".
Definition relayer_cannot_vote : Response :=
  failure 400 "The relayer wallet cannot vote. Please use a different wallet.".
Definition internal_error (msg : string) : Response :=
  failure_with 500 "Internal server error" msg.
Definition nonce_error : Response :=
  failure 500 "Transaction nonce error. Please try again.".

(** The [catch] block around the submission (lines 567-604): the ledger's
    error message is mapped to a reply by substring tests, first match
    wins. *)
Definition submission_error (msg : string) : Response :=
  if includes msg "Bad signature" then
    failure 400 "Invalid signature provided for vote verification"
  else if includes msg "Already voted" then
    already_voted
  else if includes msg "Insufficient relayer funds"
          || includes msg "doesn't have enough funds" then
    failure 400 "Insufficient funds from poll creator to cover gas fees"
  else if includes msg "insufficient funds" then
    failure 400 "Relayer wallet needs more funds. Please try again later."
  else if includes msg "nonce" then
    nonce_error
  else if includes msg "gas" then
    failure 500 "Transaction gas error. Please try again later."
  else
    failure_with 500 "Failed to submit vote. Please try again later." msg.

(** ** Constants of the submission *)

Definition fixedGasLimit : Z := 500000.

(** Options of the original submission (lines 344-348): no [nonce]. *)
Definition original_options : Overrides :=
  mkOverrides fixedGasLimit (gwei 80) (gwei 30) None.

(** [replacementGasPrice] plus the original nonce (lines 438-468). *)
Definition replacement_options (n : Z) : Overrides :=
  mkOverrides 600000 (gwei 100) (gwei 35) (Some n).

(** [estimatedGasCost] (line 291) *)
Definition estimatedGasCost : Z := gwei 80 * 500000.

Definition maxConfirmationAttempts : nat := 5.

(** ** The handler as a computation over the history

    A step either replies (the [return res.status(..).json(..)] of the
    source, which ends the handler) or continues with a value. *)

Definition Step (A : Type) : Type := History -> (Response + A) * History.

Definition pure {A : Type} (a : A) : Step A := fun h => (inr a, h).

Definition reply {A : Type} (r : Response) : Step A := fun h => (inl r, h).

Definition bind {A B : Type} (m : Step A) (k : A -> Step B) : Step B :=
  fun h =>
    match m h with
    | (inl r, h') => (inl r, h')
    | (inr a, h') => k a h'
    end.

(** An awaited ledger call: the oracle answers from the history so far and
    the call is appended to it. *)
Definition call {A : Type} (e : Event) (oracle : History -> A) : Step A :=
  fun h => (inr (oracle h), h ++ [e]).

Declare Scope step_scope.
Delimit Scope step_scope with step.
Notation "x <- m ;; k" := (bind m (fun x => k))
  (at level 61, m at next level, right associativity) : step_scope.
Notation "m ;; k" := (bind m (fun _ => k))
  (at level 61, right associativity) : step_scope.
Local Open Scope step_scope.

Section Handler.

(** [ethers.BigNumber.from], a function of the ethers library: the number,
    or the error it throws. *)
Variable BigNumber_from : JsValue -> Result Z.

Variable L : Ledger.

(** Lines 181-194: the presence test. *)
Definition missing_required (req : Request) : bool :=
  negb (truthy (pollId req)) || is_undefined (candidateId req)
  || negb (truthy (voter req)) || negb (truthy (signature req)).

Definition validate (req : Request) : Step unit :=
  if missing_required req then reply missing_parameters else pure tt.

(** Lines 207-222: conversion of the two identifiers. *)
Definition convert_ids (req : Request) : Step (Z * Z) :=
  match BigNumber_from (pollId req) with
  | Throw msg => reply (invalid_format msg)
  | Ok pollIdBN =>
      match BigNumber_from (candidateId req) with
      | Throw msg => reply (invalid_format msg)
      | Ok candidateIdBN => pure (pollIdBN, candidateIdBN)
      end
  end.

(** Lines 224-252: the poll details are fetched and the candidate index is
    compared with the candidate count; a failed fetch is ignored. *)
Definition check_candidate (pollIdBN candidateIdBN : Z) : Step unit :=
  r <- call (EGetPollDetails pollIdBN) (fun h => getPollDetails L h pollIdBN) ;;
  match r with
  | Ok details =>
      if candidateCount details <=? candidateIdBN
      then reply invalid_candidate
      else pure tt
  | Throw _ => pure tt
  end.

(** Lines 254-275 *)
Definition check_not_voted (pollIdBN : Z) (v : JsValue) : Step unit :=
  r <- call (EHasVoted pollIdBN v) (fun h => hasVoted L h pollIdBN v) ;;
  match r with
  | Ok true => reply already_voted
  | Ok false => pure tt
  | Throw _ => reply voter_status_failed
  end.

(** Lines 97-114: a failed balance read counts as a zero balance. *)
Definition checkWalletBalance : Step Z :=
  r <- call (EGetBalance (wallet_address L))
            (fun h => getBalance L h (wallet_address L)) ;;
  match r with
  | Ok balance => pure balance
  | Throw _ => pure 0
  end.

(** Lines 289-299 *)
Definition check_funds : Step unit :=
  balance <- checkWalletBalance ;;
  if balance <? estimatedGasCost then reply relayer_underfunded else pure tt.

(** Lines 301-309; a [TypeError] of [voter.toLowerCase()] reaches the outer
    [catch] (lines 606-613). *)
Definition check_not_relayer (v : JsValue) : Step unit :=
  match toLowerCase v with
  | Throw msg => reply (internal_error msg)
  | Ok lowered =>
      if String.eqb lowered (lower (wallet_address L))
      then reply relayer_cannot_vote
      else pure tt
  end.

(** Lines 179 and 287: [merkleProof = []] by default, then [merkleProof || []]. *)
Definition formattedMerkleProof (req : Request) : JsValue :=
  if truthy (merkleProof req) then merkleProof req else JArray [].

Definition metaVote_event (req : Request) (pollIdBN candidateIdBN : Z)
    (options : Overrides) : Event :=
  EMetaVote pollIdBN candidateIdBN (voter req) (formattedMerkleProof req)
            (signature req) options.

Definition metaVote_call (req : Request) (pollIdBN candidateIdBN : Z)
    (options : Overrides) (h : History) : Result Tx :=
  metaVote L h pollIdBN candidateIdBN (voter req) (formattedMerkleProof req)
           (signature req) options.

(** Lines 311-349 and the [catch] of lines 548-605. *)
Definition send_vote (req : Request) (pollIdBN candidateIdBN : Z) : Step Tx :=
  r <- call (metaVote_event req pollIdBN candidateIdBN original_options)
            (metaVote_call req pollIdBN candidateIdBN original_options) ;;
  match r with
  | Ok tx => pure tx
  | Throw msg => reply (submission_error msg)
  end.

(** Everything up to the submission: the checks in the order of the
    source. *)
Definition check_eligibility (req : Request) : Step (Z * Z) :=
  validate req ;;
  ids <- convert_ids req ;;
  check_candidate (fst ids) (snd ids) ;;
  check_not_voted (fst ids) (voter req) ;;
  check_funds ;;
  check_not_relayer (voter req) ;;
  pure ids.

(** *** The confirmation monitor (lines 412-547) *)

(** Lines 433-491: the replacement of a transaction that is still pending
    after the last attempt.  Any error inside is caught and logged. *)
Definition replace_stuck (req : Request) (pollIdBN candidateIdBN : Z) (tx : Tx)
    (h : History) : History :=
  let h1 := h ++ [EGetTransaction (hash tx)] in
  match getTransaction L h (hash tx) with
  | Ok (Some originalTx) =>
      let options := replacement_options (tx_nonce originalTx) in
      let e := metaVote_event req pollIdBN candidateIdBN options in
      match metaVote_call req pollIdBN candidateIdBN options h1 with
      | Ok replacementTx =>
          h1 ++ [e; ESetTimeout 10000;
                 EGetTransactionReceipt (hash replacementTx)]
      | Throw _ => h1 ++ [e]
      end
  | Ok None => h1
  | Throw _ => h1
  end.

(** Lines 496-535: a receipt was found. *)
Definition inspect_receipt (req : Request) (pollIdBN : Z) (tx : Tx)
    (receipt : Receipt) (h : History) : History :=
  if receipt_status receipt =? 1
  then h ++ [EHasVoted pollIdBN (voter req)]
  else h ++ [EGetTransaction (hash tx)].

(** [checkTransactionConfirmation]: [confirmationAttempts] is the value of
    the counter on entry; the function reschedules itself through
    [setTimeout] while the incremented counter is below
    [maxConfirmationAttempts]. *)
Equations? checkTransactionConfirmation (req : Request)
    (pollIdBN candidateIdBN : Z) (tx : Tx) (confirmationAttempts : nat)
    (h : History) : History
    by wf (maxConfirmationAttempts - confirmationAttempts)%nat lt :=
  checkTransactionConfirmation req pollIdBN candidateIdBN tx n h
    with getTransactionReceipt L h (hash tx) := {
    | Ok (Some receipt) :=
        inspect_receipt req pollIdBN tx receipt
          (h ++ [EGetTransactionReceipt (hash tx)]);
    | Ok None with lt_dec (S n) maxConfirmationAttempts := {
      | left Hlt :=
          checkTransactionConfirmation req pollIdBN candidateIdBN tx (S n)
            (h ++ [EGetTransactionReceipt (hash tx);
                   ESetTimeout (5000 * Z.of_nat (S n))]);
      | right _ :=
          replace_stuck req pollIdBN candidateIdBN tx
            (h ++ [EGetTransactionReceipt (hash tx)]) };
    | Throw _ with lt_dec (S n) maxConfirmationAttempts := {
      | left Hlt :=
          checkTransactionConfirmation req pollIdBN candidateIdBN tx (S n)
            (h ++ [EGetTransactionReceipt (hash tx);
                   ESetTimeout (5000 * Z.of_nat (S n))]);
      | right _ := h ++ [EGetTransactionReceipt (hash tx)] } }.
Proof.
  all: unfold maxConfirmationAttempts in Hlt.
  all: do 4 (destruct n as [|n]; [cbn; lia|]); lia.
Qed.

(** Line 547: [setTimeout(checkTransactionConfirmation, 5000)]. *)
Definition start_monitoring (req : Request) (pollIdBN candidateIdBN : Z)
    (tx : Tx) (h : History) : History :=
  checkTransactionConfirmation req pollIdBN candidateIdBN tx 0%nat
    (h ++ [ESetTimeout 5000]).

(** Lines 356-408: the first wait races a 10 s timer; when it does not
    confirm, a second [tx.wait(1)] is scheduled 5 s later.  That timer is
    registered before the monitor's and has the same delay, so its callback
    runs first. *)
Definition after_response (req : Request) (pollIdBN candidateIdBN : Z)
    (tx : Tx) (h : History) : History :=
  let h1 := h ++ [ESetTimeout 10000; ETxWait (hash tx)] in
  match tx_wait L (h ++ [ESetTimeout 10000]) (hash tx) with
  | WaitConfirmed _ =>
      start_monitoring req pollIdBN candidateIdBN tx h1
  | WaitFailed _ | WaitTimeout =>
      checkTransactionConfirmation req pollIdBN candidateIdBN tx 0%nat
        (h1 ++ [ESetTimeout 5000; ESetTimeout 5000; ETxWait (hash tx)])
  end.

(** [app.post('/submit-vote', ...)] *)
Definition submit_vote (rid : RequestId) (req : Request) (h : History)
    : Response * History :=
  match (ids <- check_eligibility req ;;
         tx <- send_vote req (fst ids) (snd ids) ;;
         pure (ids, tx)) h with
  | (inl r, h') => (r, h')
  | (inr (ids, tx), h') =>
      (accepted tx req rid, after_response req (fst ids) (snd ids) tx h')
  end.

End Handler.

(** ** Reading histories *)

Definition is_metaVote (e : Event) : bool :=
  match e with
  | EMetaVote _ _ _ _ _ _ => true
  | _ => false
  end.

(** Number of transactions sent to the ledger. *)
Definition submissions (h : History) : nat :=
  List.length (filter is_metaVote h).

(** The read-only calls of the eligibility phase. *)
Definition is_read (e : Event) : bool :=
  match e with
  | EGetPollDetails _ | EHasVoted _ _ | EGetBalance _ => true
  | _ => false
  end.

(** What happens after the reply: a [metaVote] only with the replacement
    options. *)
Definition monitor_event (e : Event) : Prop :=
  match e with
  | EMetaVote _ _ _ _ _ options => exists n, options = replacement_options n
  | _ => True
  end.

(** The ledger with every poll's details passed through [f]. *)
Definition map_poll (f : PollDetails -> PollDetails) (L : Ledger) : Ledger :=
  mkLedger (wallet_address L)
    (fun h p =>
       match getPollDetails L h p with
       | Ok details => Ok (f details)
       | Throw msg => Throw msg
       end)
    (hasVoted L) (getBalance L) (metaVote L) (tx_wait L)
    (getTransactionReceipt L) (getTransaction L).

Definition with_endTime (t : Z) (d : PollDetails) : PollDetails :=
  mkPoll (title d) (creator d) t (candidateCount d) (isPublic d)
         (voterCount d) (maxVoters d).

Definition with_voters (count limit : Z) (d : PollDetails) : PollDetails :=
  mkPoll (title d) (creator d) (endTime d) (candidateCount d) (isPublic d)
         count limit.

(** What a caller sees of a response apart from the request id. *)
Definition outcome (r : Response)
    : Z * bool * string * option string *
      option (string * JsValue * JsValue) :=
  (status r, success r, message r, error r,
   option_map (fun s => (txHash s, echo_pollId s, echo_candidateId s))
              (submitted r)).

(** What one run of a part of the monitor appends to the history. *)
Definition monitor_run (h h' : History) : Prop :=
  exists tr,
    h' = h ++ tr /\ Forall monitor_event tr /\ (submissions tr <= 1)%nat.

(** ** Proof automation for the steps *)

Ltac step_unfold :=
  unfold check_eligibility, validate, convert_ids, check_candidate,
    check_not_voted, check_funds, checkWalletBalance, check_not_relayer,
    send_vote, bind, call, pure, reply in *.

Ltac case_step :=
  match goal with
  | |- context [match ?x with _ => _ end] =>
      lazymatch x with
      | context [match _ with _ => _ end] => fail
      | _ => destruct x eqn:?
      end
  | |- context [if ?x then _ else _] =>
      lazymatch x with
      | context [if _ then _ else _] => fail
      | context [match _ with _ => _ end] => fail
      | _ => destruct x eqn:?
      end
  end.


(** One more pending receipt, in the unfolding of the monitor. *)
Ltac poll_again H :=
  simp checkTransactionConfirmation; rewrite H;
  simp checkTransactionConfirmation;
  match goal with
  | |- context [lt_dec ?a ?b] =>
      destruct (lt_dec a b);
      [|exfalso; unfold maxConfirmationAttempts in *; lia]
  end.

Ltac poll_last H :=
  simp checkTransactionConfirmation; rewrite H;
  simp checkTransactionConfirmation;
  match goal with
  | |- context [lt_dec ?a ?b] =>
      destruct (lt_dec a b);
      [exfalso; unfold maxConfirmationAttempts in *; lia|]
  end;
  simp checkTransactionConfirmation.

(** ** Sample requests and ledgers *)

(** [ethers.BigNumber.from] on JSON numbers, as ethers v5 does it: a
    number with a fractional part is an underflow, one outside the safe
    integer range an overflow.  The samples below pass numeric identifiers
    only; other values are not interpreted by this instance. *)
Definition numeric_BigNumber_from (v : JsValue) : Result Z :=
  match v with
  | JNumber n =>
      if (9007199254740991 <=? n) || (n <=? -9007199254740991)
      then Throw "overflow"
      else Ok n
  | JFraction => Throw "underflow"
  | _ => Throw "invalid BigNumber value"
  end.

(** [DEFAULT_RELAYER_ADDRESS] (line 40) *)
Definition relayer_address : string :=
  "0xF0B5381A05A8d8368C7D3af031F7B50e979CeA12".

Definition voter_address : string :=
  "0x70997970C51812dc3A010C7d01b50e0d17dc79C8".

Definition creator_address : string :=
  "0x3C44CdDdB6a900fa2b585dd299e03d12FA4293BC".

(** Poll 1 with three candidates, room for voters, still open in 2030. *)
Definition open_poll : PollDetails :=
  mkPoll "Board" creator_address 1900000000 3 true 0 10.

Definition sample_signature : JsValue := JString "0x1b2c3d".

Definition sample_receipt : Receipt := mkReceipt 1 121000 4242.

Definition sample_tx : Tx := mkTx "0xaaaa" 7.

(** A ledger that confirms at once.  [details] is the poll it reports,
    [voted] whether the voter had voted before the request, [balance] the
    relayer's balance and [sent] the answer to a submission.  After a
    submission the voter counts as having voted. *)
Definition mock_ledger (details : PollDetails) (voted : bool) (balance : Z)
    (sent : Result Tx) : Ledger :=
  mkLedger relayer_address
    (fun _ _ => Ok details)
    (fun h _ v =>
       match v with
       | JString _ => Ok (voted || existsb is_metaVote h)
       | _ => Throw "invalid address"
       end)
    (fun _ _ => Ok balance)
    (fun _ _ _ _ _ _ _ => sent)
    (fun _ _ => WaitConfirmed sample_receipt)
    (fun _ _ => Ok (Some sample_receipt))
    (fun _ txh => Ok (Some (mkTx txh 7))).

(** A ledger on which no transaction is ever mined: it accepts the
    original and the replacement and never has a receipt.  [lookup] is its
    answer to [provider.getTransaction]. *)
Definition pending_ledger (lookup : string -> Result (option Tx)) : Ledger :=
  mkLedger relayer_address
    (fun _ _ => Ok open_poll)
    (fun _ _ _ => Ok false)
    (fun _ _ => Ok (10 ^ 18))
    (fun _ _ _ _ _ _ options =>
       match nonce options with
       | None => Ok sample_tx
       | Some n => Ok (mkTx "0xbbbb" n)
       end)
    (fun _ _ => WaitTimeout)
    (fun _ _ => Ok None)
    (fun _ txh => lookup txh).

(** The pending transaction is still known to the node, with nonce 7. *)
Definition silent_ledger : Ledger :=
  pending_ledger (fun txh => Ok (Some (mkTx txh 7))).

(** The pending transaction has been dropped: the node does not know it. *)
Definition forgetful_ledger : Ledger := pending_ledger (fun _ => Ok None).

(** The same poll, closed since 2001. *)
Definition ended_poll : PollDetails := with_endTime 1000000000 open_poll.

(** The same poll with all ten places taken. *)
Definition full_poll : PollDetails := with_voters 10 10 open_poll.

Definition vote_request : Request :=
  mkRequest (JNumber 1) (JNumber 0) (JString voter_address) sample_signature
            JUndefined.

(** A request id taken in 2027: [Date.now()] in milliseconds. *)
Definition sample_id : RequestId := mkRequestId 1800000000000 4242.

(** The three reads of a request that reaches the submission. *)
Definition eligibility_reads (L : Ledger) (pollIdBN : Z) (v : JsValue)
    : History :=
  [EGetPollDetails pollIdBN; EHasVoted pollIdBN v;
   EGetBalance (wallet_address L)].

(** ** Further readings of a history *)

(** Total of the delays passed to [setTimeout], in milliseconds. *)
Definition waiting (h : History) : Z :=
  fold_right (fun e acc =>
                match e with
                | ESetTimeout ms => ms + acc
                | _ => acc
                end) 0 h.

(** The receipt polls of a transaction, one per remaining attempt, with the
    delay scheduled after each but the last; [n] is the value of
    [confirmationAttempts] before the first of them. *)
Fixpoint pending_polls (txh : string) (remaining n : nat) : History :=
  match remaining with
  | O => []
  | S O => [EGetTransactionReceipt txh]
  | S k =>
      EGetTransactionReceipt txh :: ESetTimeout (5000 * Z.of_nat (S n))
      :: pending_polls txh k (S n)
  end.

(** The most the monitor can still wait when [confirmationAttempts] is [n]. *)
Definition remaining_wait (n : nat) : Z :=
  match n with
  | 0%nat => 60000
  | 1%nat => 55000
  | 2%nat => 45000
  | 3%nat => 30000
  | _ => 10000
  end.

(** A [metaVote] of the request [req] converted to [p] and [c]. *)
Definition relays (req : Request) (p c : Z) (e : Event) : Prop :=
  match e with
  | EMetaVote p' c' v m s _ =>
      p' = p /\ c' = c /\ v = voter req /\ m = formattedMerkleProof req /\
      s = signature req
  | _ => True
  end.

(** ** The probes: [GET /status] and [GET /wallet-info]
      (relayer-service/server.js, lines 116-143 and 627-680) *)

(** The calls of the two probes. *)
Inductive ProbeCall : Type :=
| PIsAuthorizedRelayer (address : string)
| PGetBalance (address : string)
| PGetTransactionCount (address : string)
| PGetNetwork
| PGetGasPrice.

(** What [initializeBlockchain] sets up: [wallet.address] and the node
    behind [provider] and [contract].  As for the ledger of the votes, an
    oracle sees the calls made before. *)
Record Node : Type := mkNode {
  node_address : string;
  isAuthorizedRelayer : list ProbeCall -> string -> Result bool;
  node_getBalance : list ProbeCall -> string -> Result Z;
  getTransactionCount : list ProbeCall -> string -> Result Z;
  getNetwork : list ProbeCall -> Result (string * Z);
  getGasPrice : list ProbeCall -> Result Z
}.

(** The body of a [/status] reply. *)
Record StatusReply : Type := mkStatusReply {
  st_status : Z;
  st_success : bool;
  st_message : option string;
  st_address : option string;
  st_authorized : option bool;
  st_balance : option string
}.

(** The body of a [/wallet-info] reply on success. *)
Record WalletInfo : Type := mkWalletInfo {
  wi_address : string;
  wi_balance : string;
  wi_authorized : bool;
  wi_nonce : Z;
  wi_network : string * Z;
  wi_currentGasPrice : string;
  wi_typicalTransactionCost : string;
  wi_hasEnoughFunds : bool
}.

Section Probes.

(** [ethers.utils.formatEther] and [ethers.utils.formatUnits(_, "gwei")],
    functions of the ethers library. *)
Variable formatEther : Z -> string.
Variable formatGwei : Z -> string.

(** [None] before [initializeBlockchain] has run. *)
Variable node : option Node.

Definition status_failure (msg : string) : StatusReply :=
  mkStatusReply 500 false (Some msg) None None None.

(** [app.get('/status', ...)] *)
Definition status_endpoint (h : list ProbeCall)
    : StatusReply * list ProbeCall :=
  match node with
  | None => (status_failure "Relayer service not initialized", h)
  | Some N =>
      let h1 := h ++ [PIsAuthorizedRelayer (node_address N)] in
      match isAuthorizedRelayer N h (node_address N) with
      | Throw msg => (status_failure msg, h1)
      | Ok isAuthorized =>
          let h2 := h1 ++ [PGetBalance (node_address N)] in
          match node_getBalance N h1 (node_address N) with
          | Throw msg => (status_failure msg, h2)
          | Ok balance =>
              (mkStatusReply 200 true None (Some (node_address N))
                 (Some isAuthorized) (Some (formatEther balance)), h2)
          end
      end
  end.

(** [app.get('/wallet-info', ...)]: the status code with the error message
    or the body. *)
Definition wallet_info (h : list ProbeCall)
    : Z * (string + WalletInfo) * list ProbeCall :=
  match node with
  | None => (500, inl "Relayer service not initialized", h)
  | Some N =>
      let address := node_address N in
      let h1 := h ++ [PGetBalance address] in
      match node_getBalance N h address with
      | Throw msg => (500, inl msg, h1)
      | Ok balance =>
      let h2 := h1 ++ [PGetTransactionCount address] in
      match getTransactionCount N h1 address with
      | Throw msg => (500, inl msg, h2)
      | Ok nonce =>
      let h3 := h2 ++ [PGetNetwork] in
      match getNetwork N h2 with
      | Throw msg => (500, inl msg, h3)
      | Ok network =>
      let h4 := h3 ++ [PGetGasPrice] in
      match getGasPrice N h3 with
      | Throw msg => (500, inl msg, h4)
      | Ok gasPrice =>
      let h5 := h4 ++ [PIsAuthorizedRelayer address] in
      match isAuthorizedRelayer N h4 address with
      | Throw msg => (500, inl msg, h5)
      | Ok isAuthorized =>
          let typicalGasCost := gasPrice * 300000 in
          let hasEnoughFunds := typicalGasCost * 2 <? balance in
          (200,
           inr (mkWalletInfo address (formatEther balance) isAuthorized
                  nonce network (formatGwei gasPrice)
                  (formatEther typicalGasCost) hasEnoughFunds),
           h5)
      end end end end end
  end.

End Probes.

(** ** The client of the relayer
      (src/hooks.js, lines 105-332: [checkRelayerServiceStatus] and
      [submitMetaTransaction]) *)

(** The outcome of a [fetch]: the reply of the relayer, or the error the
    promise rejects with, by name and message. *)
Inductive Fetch (A : Type) : Type :=
| Answered (a : A)
| Failed (name message : string).
Arguments Answered {A} a.
Arguments Failed {A} name message.

Inductive ClientEvent : Type :=
| CGetStatus
| CPostVote (body : Request)
| CSleep (ms : Z).

(** The network between the client and the relayer; an oracle sees what
    the client did before. *)
Record Network : Type := mkNetwork {
  fetch_status : list ClientEvent -> Fetch StatusReply;
  fetch_submit : list ClientEvent -> Request -> Fetch Response
}.

(** [RelayerResponse], as the client builds it. *)
Record ClientResult : Type := mkClientResult {
  c_success : bool;
  c_message : string;
  c_txHash : option string;
  c_ids : option (Z * Z)
}.

Definition refused (msg : string) : ClientResult :=
  mkClientResult false msg None None.

(** [response.ok] *)
Definition http_ok (code : Z) : bool := (200 <=? code) && (code <=? 299).

(** [Number.prototype.toString] on an integer (in the range where
    JavaScript prints all the digits). *)
Definition Number_toString (n : Z) : string :=
  NilZero.string_of_int (Z.to_int n).

(** The JSON body the client posts (lines 154-160). *)
Definition payload (pollId candidateId : Z) (voter signature : string)
    (merkleProof : list string) : Request :=
  mkRequest (JString (Number_toString pollId))
            (JString (Number_toString candidateId))
            (JString voter) (JString signature)
            (JArray (map JString merkleProof)).

(** [checkRelayerServiceStatus] (lines 105-120) *)
Definition checkRelayerServiceStatus (N : Network) (h : list ClientEvent)
    : bool :=
  match fetch_status N h with
  | Answered reply => http_ok (st_status reply) && st_success reply
  | Failed _ _ => false
  end.

(** [x || fallback] on a string *)
Definition or_else (x fallback : string) : string :=
  if String.eqb x "" then fallback else x.

(** Lines 193-262: what the client makes of a reply of the relayer. *)
Definition interpret_reply (pollId candidateId : Z) (r : Response)
    : ClientResult :=
  if negb (http_ok (status r)) then
    if (status r =? 400) && includes (message r) "already voted" then
      refused "You have already voted in this poll."
    else if (status r =? 400) &&
            (includes (message r) "Insufficient"
             || includes (message r) "funds") then
      refused "Poll creator doesn't have enough funds to cover gas fees for voting."
    else if (status r =? 400) && includes (message r) "Invalid" then
      refused "Invalid vote signature. Please try again."
    else if (status r =? 400) && includes (message r) "ended" then
      refused "This poll has ended. Voting is no longer possible."
    else if (status r =? 400) && includes (message r) "Maximum voters" then
      refused "Maximum number of voters reached for this poll."
    else
      refused (or_else (message r)
                 "Failed to submit vote through relayer service")
  else
    match submitted r with
    | Some s =>
        if String.eqb (txHash s) "" then
          if success r then
            mkClientResult true
              "Vote submitted via relayer. Waiting for blockchain confirmation..."
              None (Some (pollId, candidateId))
          else
            refused (or_else (message r) "Relayer failed to process the vote")
        else
          mkClientResult true
            "Vote submitted via relayer and recorded on the blockchain!"
            (Some (txHash s)) (Some (pollId, candidateId))
    | None =>
        if success r then
          mkClientResult true
            "Vote submitted via relayer. Waiting for blockchain confirmation..."
            None (Some (pollId, candidateId))
        else
          refused (or_else (message r) "Relayer failed to process the vote")
    end.

(** Lines 291-331: what the client makes of an error. *)
Definition explain_error (name msg : string) : ClientResult :=
  if String.eqb name "AbortError" then
    refused "Request to relayer service timed out. The network might be congested. Your vote might still be processed, please check back later."
  else
    let errorMessage := or_else msg "Unknown error" in
    if includes errorMessage "Already voted" then
      refused "You have already voted in this poll on the blockchain."
    else if includes errorMessage "Insufficient"
            || includes errorMessage "funds" then
      refused "Insufficient funds from poll creator on the blockchain to cover gas costs."
    else if includes errorMessage "user rejected"
            || includes errorMessage "User denied" then
      refused "Transaction rejected by user. Please try again."
    else if includes errorMessage "Network request failed"
            || includes errorMessage "Failed to fetch" then
      refused "Failed to connect to relayer service. Please check your internet connection and try again later."
    else
      refused (String.append "Error: "
                 (String.append (String.substring 0 100 errorMessage)
                    (if (100 <? String.length errorMessage)%nat
                     then "..." else ""))).

Definition maxRetries : nat := 2.

(** [makeRequest] (lines 176-274): [retryCount] is the value of the counter
    on entry.  A rejected [fetch] other than an abort is retried after
    [retryCount * 2000] ms while the counter is below [maxRetries]. *)
Equations? makeRequest (N : Network) (body : Request)
    (pollId candidateId : Z) (retryCount : nat) (h : list ClientEvent)
    : (ClientResult + string * string) * list ClientEvent
    by wf (maxRetries - retryCount)%nat lt :=
  makeRequest N body pollId candidateId retryCount h
    with fetch_submit N h body := {
    | Answered r :=
        (inl (interpret_reply pollId candidateId r), h ++ [CPostVote body]);
    | Failed name msg with lt_dec retryCount maxRetries := {
      | left Hlt with String.eqb name "AbortError" := {
        | true := (inr (name, msg), h ++ [CPostVote body]);
        | false :=
            makeRequest N body pollId candidateId (S retryCount)
              (h ++ [CPostVote body;
                     CSleep (Z.of_nat (S retryCount) * 2000)]) };
      | right _ := (inr (name, msg), h ++ [CPostVote body]) } }.
Proof.
  unfold maxRetries in Hlt.
  do 2 (destruct retryCount as [|retryCount]; [cbn; lia|]). lia.
Qed.

(** [submitMetaTransaction] (lines 123-332) *)
Definition submitMetaTransaction (N : Network) (pollId candidateId : Z)
    (voter signature : string) (merkleProof : list string)
    (h : list ClientEvent) : ClientResult * list ClientEvent :=
  let h1 := h ++ [CGetStatus] in
  if checkRelayerServiceStatus N h then
    match makeRequest N (payload pollId candidateId voter signature
                                 merkleProof)
                      pollId candidateId 0%nat h1 with
    | (inl result, h2) => (result, h2)
    | (inr (name, msg), h2) => (explain_error name msg, h2)
    end
  else
    (refused "Relayer service appears to be offline. Please try again later.",
     h1).

(** Number of votes posted to the relayer. *)
Definition posts (h : list ClientEvent) : nat :=
  List.length (filter (fun e => match e with
                                | CPostVote _ => true
                                | _ => false
                                end) h).

(** Total of the client's pauses between attempts, in milliseconds. *)
Definition pauses (h : list ClientEvent) : Z :=
  fold_right (fun e acc =>
                match e with
                | CSleep ms => ms + acc
                | _ => acc
                end) 0 h.

(** A network on which the relayer itself answers: [/status] with [up]
    and every posted vote with [answer]. *)
Definition relayer_network (up : StatusReply) (answer : Request -> Response)
    : Network :=
  mkNetwork (fun _ => Answered up) (fun _ body => Answered (answer body)).

(** [ethers.BigNumber.from] on JSON numbers and on decimal strings, which
    is how the repository's clients send the identifiers.  Hexadecimal
    strings and other values are not interpreted by this instance. *)
Definition decimal_BigNumber_from (v : JsValue) : Result Z :=
  match v with
  | JString s =>
      match NilZero.int_of_string s with
      | Some d => Ok (Z.of_int d)
      | None => Throw "invalid BigNumber string"
      end
  | _ => numeric_BigNumber_from v
  end.

(** A [/status] reply of an initialised relayer that is not authorized and
    has no funds. *)
Definition bare_status : StatusReply :=
  mkStatusReply 200 true None (Some relayer_address) (Some false)
                (Some "0.0").

(** A node behind a relayer that is not authorized and has no funds. *)
Definition bare_node : Node :=
  mkNode relayer_address (fun _ _ => Ok false) (fun _ _ => Ok 0)
         (fun _ _ => Ok 7) (fun _ => Ok ("matic", 137))
         (fun _ => Ok (gwei 30)).

(** The network on which [/status] of that relayer answers and posts do
    not get through. *)
Definition bare_network : Network :=
  mkNetwork
    (fun _ =>
       Answered (fst (status_endpoint (fun _ => "0.0") (Some bare_node) [])))
    (fun _ _ => Failed "TypeError" "Failed to fetch").

(** ** Lemmas on histories *)

Lemma submissions_app (h1 h2 : History) :
  submissions (h1 ++ h2) = (submissions h1 + submissions h2)%nat.
Proof.
  unfold submissions. rewrite filter_app, length_app. reflexivity.
Qed.

Lemma reads_no_submission (tr : History) :
  forallb is_read tr = true -> submissions tr = 0%nat.
Proof.
  induction tr as [|e tr IH]; [reflexivity|].
  cbn [forallb]. intros H. apply andb_prop in H. destruct H as [He Htr].
  unfold submissions. cbn [filter].
  destruct e; cbn in He |- *; try discriminate; apply IH; exact Htr.
Qed.

(** The eligibility phase performs read-only calls and nothing else. *)
Lemma check_eligibility_reads BN L req h :
  exists tr,
    snd (check_eligibility BN L req h) = h ++ tr /\ forallb is_read tr = true.
Proof.
  step_unfold.
  repeat (case_step; cbn [fst snd]).
  all: repeat rewrite <- app_assoc; cbn [app].
  all: try (exists []; rewrite app_nil_r; split; reflexivity).
  all: eexists; split; [reflexivity | reflexivity].
Qed.

Lemma monitor_run_step (h : History) (pre : list Event) (h' : History) :
  Forall monitor_event pre -> submissions pre = 0%nat ->
  monitor_run (h ++ pre) h' -> monitor_run h h'.
Proof.
  intros Hpre Hsub (tr & -> & Htr & Hle).
  exists (pre ++ tr). repeat split.
  - rewrite app_assoc. reflexivity.
  - apply Forall_app. split; assumption.
  - rewrite submissions_app, Hsub. exact Hle.
Qed.

Lemma replace_stuck_run L req p c tx h :
  monitor_run h (replace_stuck L req p c tx h).
Proof.
  unfold replace_stuck, metaVote_event.
  destruct (getTransaction L h (hash tx)) as [[otx|]|].
  - destruct (metaVote_call L req p c _ _).
    + eexists. rewrite <- app_assoc. split; [reflexivity|]. split.
      * repeat constructor. eexists. reflexivity.
      * cbn. lia.
    + eexists. rewrite <- app_assoc. split; [reflexivity|]. split.
      * repeat constructor. eexists. reflexivity.
      * cbn. lia.
  - eexists. split; [reflexivity|]. split; [repeat constructor | cbn; lia].
  - eexists. split; [reflexivity|]. split; [repeat constructor | cbn; lia].
Qed.

Lemma inspect_receipt_run req p tx receipt h :
  monitor_run h (inspect_receipt req p tx receipt h).
Proof.
  unfold inspect_receipt.
  destruct (receipt_status receipt =? 1);
    (eexists; split; [reflexivity|]; split; [repeat constructor | cbn; lia]).
Qed.

(** Whatever the ledger answers, the monitor returns, having sent at most
    one transaction, and that one with the replacement options. *)
Lemma checkTransactionConfirmation_run L req p c tx n h :
  monitor_run h (checkTransactionConfirmation L req p c tx n h).
Proof.
  funelim (checkTransactionConfirmation L req p c tx n h).
  - apply monitor_run_step with (pre := [EGetTransactionReceipt (hash tx)]);
      [repeat constructor | reflexivity | apply inspect_receipt_run].
  - apply monitor_run_step
      with (pre := [EGetTransactionReceipt (hash tx);
                    ESetTimeout (5000 * Z.of_nat (S n))]);
      [repeat constructor | reflexivity | assumption].
  - apply monitor_run_step with (pre := [EGetTransactionReceipt (hash tx)]);
      [repeat constructor | reflexivity | apply replace_stuck_run].
  - apply monitor_run_step
      with (pre := [EGetTransactionReceipt (hash tx);
                    ESetTimeout (5000 * Z.of_nat (S n))]);
      [repeat constructor | reflexivity | assumption].
  - exists [EGetTransactionReceipt (hash tx)].
    split; [reflexivity|]. split; [repeat constructor | cbn; lia].
Qed.

(** The monitor reads three oracles of the ledger and no other. *)
Lemma checkTransactionConfirmation_ext L req p c tx n h :
  forall L',
    getTransactionReceipt L' = getTransactionReceipt L ->
    getTransaction L' = getTransaction L ->
    metaVote L' = metaVote L ->
    checkTransactionConfirmation L' req p c tx n h =
    checkTransactionConfirmation L req p c tx n h.
Proof.
  funelim (checkTransactionConfirmation L req p c tx n h);
    intros L' Hr Ht Hm;
    match goal with |- _ = ?r => remember r as rhs end;
    simp checkTransactionConfirmation;
    match goal with
    | Hq : getTransactionReceipt L h _ = _ |- _ => rewrite Hr, Hq
    end;
    simp checkTransactionConfirmation;
    try match goal with
        | Hq : lt_dec _ _ = _ |- _ => rewrite Hq
        end;
    simp checkTransactionConfirmation; subst rhs; auto.
  - rewrite <- (H L' Hr Ht Hm). simp checkTransactionConfirmation.
    reflexivity.
  - unfold replace_stuck, metaVote_call. rewrite Ht, Hm. reflexivity.
  - rewrite <- (H L' Hr Ht Hm). simp checkTransactionConfirmation.
    reflexivity.
Qed.

(** ** The handler and the poll details *)

(** Of the poll details the handler uses the candidate count only. *)
Lemma check_eligibility_map_poll BN L f req h :
  (forall d, candidateCount (f d) = candidateCount d) ->
  check_eligibility BN (map_poll f L) req h = check_eligibility BN L req h.
Proof.
  intros Hf. step_unfold.
  cbn [map_poll getPollDetails hasVoted getBalance wallet_address].
  destruct (missing_required req); [reflexivity|].
  destruct (BN (pollId req)) as [p|]; [|reflexivity].
  destruct (BN (candidateId req)) as [c|]; [|reflexivity].
  cbn [fst snd].
  destruct (getPollDetails L h p) as [d|]; [|reflexivity].
  rewrite Hf. reflexivity.
Qed.

Lemma submit_vote_map_poll BN L f rid req h :
  (forall d, candidateCount (f d) = candidateCount d) ->
  submit_vote BN (map_poll f L) rid req h = submit_vote BN L rid req h.
Proof.
  intros Hf. unfold submit_vote, bind.
  rewrite (check_eligibility_map_poll BN L f req h Hf).
  destruct (check_eligibility BN L req h) as [[r|ids] h1]; [reflexivity|].
  unfold send_vote, bind, call, pure, reply, metaVote_call.
  cbn [map_poll metaVote].
  destruct (metaVote L h1 _ _ _ _ _ _) as [tx|]; [|reflexivity].
  apply f_equal. unfold after_response, start_monitoring.
  cbn [map_poll tx_wait].
  destruct (tx_wait L _ _);
    apply checkTransactionConfirmation_ext; reflexivity.
Qed.

(** The request id reaches the success body and nothing else. *)
Lemma submit_vote_request_id BN L rid rid' req h :
  outcome (fst (submit_vote BN L rid' req h)) =
  outcome (fst (submit_vote BN L rid req h)) /\
  snd (submit_vote BN L rid' req h) = snd (submit_vote BN L rid req h).
Proof.
  unfold submit_vote.
  destruct (bind _ _ h) as [[r|[ids tx]] h1]; split; reflexivity.
Qed.

(** ** C1, C2: poll end time and voter count *)

(** C1 (counterexample).  Poll 1 ended in 2001 and the request arrives in
    2027 with every field valid: the handler replies 200 and the vote is
    sent to the ledger. *)
Lemma C1_ended_poll_is_submitted :
  endTime ended_poll < stamp sample_id / 1000 /\
  submit_vote numeric_BigNumber_from
    (mock_ledger ended_poll false (10 ^ 18) (Ok sample_tx))
    sample_id vote_request [] =
  (accepted sample_tx vote_request sample_id,
   [EGetPollDetails 1; EHasVoted 1 (JString voter_address);
    EGetBalance relayer_address;
    EMetaVote 1 0 (JString voter_address) (JArray []) sample_signature
              original_options;
    ESetTimeout 10000; ETxWait "0xaaaa"; ESetTimeout 5000;
    EGetTransactionReceipt "0xaaaa"; EHasVoted 1 (JString voter_address)]).
Proof. split; [reflexivity | vm_compute; reflexivity]. Qed.

(** C1 (as implemented). The handler never compares the poll's end time with
    the clock: whatever end time the ledger reports and whenever the request
    is handled, the reply (apart from the request id) and the calls made are
    the same. Rejecting a vote on an ended poll is left to the ledger. *)
Theorem C1_end_time_is_not_checked :
  forall BN L rid rid' req h (t : Z),
    outcome (fst (submit_vote BN (map_poll (with_endTime t) L) rid' req h)) =
    outcome (fst (submit_vote BN L rid req h)) /\
    snd (submit_vote BN (map_poll (with_endTime t) L) rid' req h) =
    snd (submit_vote BN L rid req h).
Proof.
  intros. rewrite submit_vote_map_poll by reflexivity.
  apply submit_vote_request_id.
Qed.

(** C2 (counterexample).  Poll 1 has ten voters out of ten: the handler
    replies 200 and the vote is sent to the ledger. *)
Lemma C2_full_poll_is_submitted :
  voterCount full_poll = maxVoters full_poll /\
  submit_vote numeric_BigNumber_from
    (mock_ledger full_poll false (10 ^ 18) (Ok sample_tx))
    sample_id vote_request [] =
  (accepted sample_tx vote_request sample_id,
   [EGetPollDetails 1; EHasVoted 1 (JString voter_address);
    EGetBalance relayer_address;
    EMetaVote 1 0 (JString voter_address) (JArray []) sample_signature
              original_options;
    ESetTimeout 10000; ETxWait "0xaaaa"; ESetTimeout 5000;
    EGetTransactionReceipt "0xaaaa"; EHasVoted 1 (JString voter_address)]).
Proof. split; [reflexivity | vm_compute; reflexivity]. Qed.

(** C2 (as implemented). The handler never compares the voter count with the
    maximum: whatever counts the ledger reports, the reply and the calls
    made are the same. Rejecting a vote on a full poll is left to the
    ledger. *)
Theorem C2_voter_count_is_not_checked :
  forall BN L rid req h (count limit : Z),
    submit_vote BN (map_poll (with_voters count limit) L) rid req h =
    submit_vote BN L rid req h.
Proof.
  intros. apply submit_vote_map_poll. reflexivity.
Qed.

(** ** Requests stopped by the eligibility phase *)

(** A reply of the eligibility phase is the reply of the handler, and no
    transaction has been sent. *)
Lemma submit_vote_stopped BN L rid req h r :
  fst (check_eligibility BN L req h) = inl r ->
  submit_vote BN L rid req h = (r, snd (check_eligibility BN L req h)) /\
  submissions (snd (submit_vote BN L rid req h)) = submissions h.
Proof.
  intros Hr.
  destruct (check_eligibility_reads BN L req h) as (tr & Htr & Hreads).
  unfold submit_vote, bind.
  destruct (check_eligibility BN L req h) as [[r0|ids] h1];
    cbn [fst snd] in *; [|discriminate].
  injection Hr as ->. split; [reflexivity|].
  cbn [snd]. rewrite Htr, submissions_app, (reads_no_submission tr Hreads).
  lia.
Qed.

(** The replies of the eligibility phase are failures. *)
Lemma check_eligibility_reply_fails BN L req h r :
  fst (check_eligibility BN L req h) = inl r -> success r = false.
Proof.
  step_unfold.
  repeat (case_step; cbn [fst snd]); intros H;
    try discriminate; injection H as <-; reflexivity.
Qed.

(** A request that passes the presence test, the conversion and the
    candidate check reaches the [hasVoted] call. *)
Lemma check_eligibility_voted BN L req h p c :
  missing_required req = false ->
  BN (pollId req) = Ok p -> BN (candidateId req) = Ok c ->
  (forall d, getPollDetails L h p = Ok d -> c < candidateCount d) ->
  hasVoted L (h ++ [EGetPollDetails p]) p (voter req) = Ok true ->
  check_eligibility BN L req h =
  (inl already_voted, h ++ [EGetPollDetails p; EHasVoted p (voter req)]).
Proof.
  intros Hm Hp Hc Hd Hv. step_unfold. rewrite Hm, Hp, Hc. cbn [fst snd].
  destruct (getPollDetails L h p) as [d|] eqn:Hg.
  - specialize (Hd d eq_refl).
    destruct (candidateCount d <=? c) eqn:Hle; [apply Z.leb_le in Hle; lia|].
    rewrite Hv, <- app_assoc. reflexivity.
  - rewrite Hv, <- app_assoc. reflexivity.
Qed.

(** A request of the relayer's own address that passes every earlier check
    stops at the self-vote check. *)
Lemma check_eligibility_self BN L req h p c v b :
  missing_required req = false ->
  BN (pollId req) = Ok p -> BN (candidateId req) = Ok c ->
  (forall d, getPollDetails L h p = Ok d -> c < candidateCount d) ->
  hasVoted L (h ++ [EGetPollDetails p]) p (voter req) = Ok false ->
  getBalance L (h ++ [EGetPollDetails p; EHasVoted p (voter req)])
             (wallet_address L) = Ok b ->
  estimatedGasCost <= b ->
  voter req = JString v -> lower v = lower (wallet_address L) ->
  check_eligibility BN L req h =
  (inl relayer_cannot_vote, h ++ eligibility_reads L p (voter req)).
Proof.
  intros Hm Hp Hc Hd Hv Hb Hle Hs Hl. step_unfold.
  rewrite Hm, Hp, Hc. cbn [fst snd].
  assert (Hcand : match getPollDetails L h p with
                  | Ok d => candidateCount d <=? c
                  | Throw _ => false
                  end = false).
  { destruct (getPollDetails L h p) as [d|]; [|reflexivity].
    specialize (Hd d eq_refl). apply Z.leb_gt. exact Hd. }
  destruct (getPollDetails L h p) as [d|]; [rewrite Hcand|];
    rewrite Hv; repeat rewrite <- app_assoc; cbn [app]; rewrite Hb;
    (destruct (b <? estimatedGasCost) eqn:Hlt;
       [apply Z.ltb_lt in Hlt; lia|]);
    rewrite Hs; cbn [toLowerCase]; rewrite Hl, String.eqb_refl;
    reflexivity.
Qed.

(** A request of the relayer's own address never passes the eligibility
    phase. *)
Lemma check_eligibility_self_stops BN L req h v :
  voter req = JString v -> lower v = lower (wallet_address L) ->
  exists r, fst (check_eligibility BN L req h) = inl r.
Proof.
  intros Hs Hl. step_unfold. rewrite Hs. cbn [toLowerCase].
  repeat (case_step; cbn [fst snd]).
  all: try (eexists; reflexivity).
  all: rewrite Hl, String.eqb_refl in *; discriminate.
Qed.

(** A request of a voter whom the ledger reports as having voted in the
    poll never passes the eligibility phase. *)
Lemma check_eligibility_voted_stops BN L req h :
  (forall h' p, BN (pollId req) = Ok p ->
                hasVoted L h' p (voter req) = Ok true) ->
  exists r, fst (check_eligibility BN L req h) = inl r.
Proof.
  intros Hv. step_unfold.
  repeat (case_step; cbn [fst snd]).
  all: try (eexists; reflexivity).
  all: match goal with
       | Hh : hasVoted _ ?h' ?p (voter _) = _ |- _ =>
           rewrite (Hv h' p eq_refl) in Hh; discriminate
       end.
Qed.

(** ** C4: the relayer's own address *)

(** C4 (counterexample).  The voter is the relayer's address and the ledger
    reports that it has voted already: the reply is the already-voted one,
    not the self-vote one.  With an empty balance instead, the reply is the
    underfunded one. *)
Lemma C4_self_vote_other_reason :
  let self := mkRequest (JNumber 1) (JNumber 0) (JString relayer_address)
                        sample_signature JUndefined in
  submit_vote numeric_BigNumber_from
    (mock_ledger open_poll true (10 ^ 18) (Ok sample_tx)) sample_id self [] =
  (already_voted, [EGetPollDetails 1; EHasVoted 1 (JString relayer_address)])
  /\
  submit_vote numeric_BigNumber_from
    (mock_ledger open_poll false 0 (Ok sample_tx)) sample_id self [] =
  (relayer_underfunded,
   [EGetPollDetails 1; EHasVoted 1 (JString relayer_address);
    EGetBalance relayer_address])
  /\ already_voted <> relayer_cannot_vote
  /\ relayer_underfunded <> relayer_cannot_vote.
Proof.
  cbv zeta. repeat split; try (vm_compute; reflexivity); discriminate.
Qed.

(** C4 (as implemented). For every request whose voter is the relayer's own
    address, compared case-insensitively, the request fails and no
    transaction is sent; the reply is the self-vote one when the request
    passes the checks made before it: the fields are present and
    convertible, the candidate index is below the candidate count (or the
    poll details cannot be read), the ledger reports that the voter has not
    voted, and the relayer's balance covers the estimated gas cost. *)
Theorem C4_self_vote_rejected :
  forall BN L rid req h v,
    voter req = JString v ->
    lower v = lower (wallet_address L) ->
    success (fst (submit_vote BN L rid req h)) = false /\
    submissions (snd (submit_vote BN L rid req h)) = submissions h /\
    (forall p c b,
       missing_required req = false ->
       BN (pollId req) = Ok p -> BN (candidateId req) = Ok c ->
       (forall d, getPollDetails L h p = Ok d -> c < candidateCount d) ->
       hasVoted L (h ++ [EGetPollDetails p]) p (voter req) = Ok false ->
       getBalance L (h ++ [EGetPollDetails p; EHasVoted p (voter req)])
                  (wallet_address L) = Ok b ->
       estimatedGasCost <= b ->
       submit_vote BN L rid req h =
       (relayer_cannot_vote, h ++ eligibility_reads L p (voter req))).
Proof.
  intros BN L rid req h v Hs Hl.
  destruct (check_eligibility_self_stops BN L req h v Hs Hl) as [r Hr].
  destruct (submit_vote_stopped BN L rid req h r Hr) as [Heq Hsub].
  split; [|split].
  - rewrite Heq. cbn [fst].
    exact (check_eligibility_reply_fails BN L req h r Hr).
  - exact Hsub.
  - intros p c b Hm Hp Hc Hd Hv Hb Hle.
    pose proof (check_eligibility_self BN L req h p c v b
                  Hm Hp Hc Hd Hv Hb Hle Hs Hl) as He.
    rewrite He in Hr. cbn [fst] in Hr. injection Hr as <-.
    rewrite Heq, He. reflexivity.
Qed.

(** C4 (instance): the relayer's address in lower case, on an open poll, not
    voted, balance of one unit of currency. *)
Lemma C4_self_vote_rejected_witness :
  submit_vote numeric_BigNumber_from
    (mock_ledger open_poll false (10 ^ 18) (Ok sample_tx)) sample_id
    (mkRequest (JNumber 1) (JNumber 0) (JString (lower relayer_address))
               sample_signature JUndefined) [] =
  (relayer_cannot_vote,
   [EGetPollDetails 1; EHasVoted 1 (JString (lower relayer_address));
    EGetBalance relayer_address]).
Proof.
  refine (proj2 (proj2 (C4_self_vote_rejected numeric_BigNumber_from
    (mock_ledger open_poll false (10 ^ 18) (Ok sample_tx)) sample_id
    (mkRequest (JNumber 1) (JNumber 0) (JString (lower relayer_address))
               sample_signature JUndefined) [] (lower relayer_address)
    eq_refl _)) 1 0 (10 ^ 18) _ _ _ _ _ _ _).
  - vm_compute. reflexivity.
  - reflexivity.
  - reflexivity.
  - reflexivity.
  - intros d Hd. injection Hd as <-. reflexivity.
  - reflexivity.
  - reflexivity.
  - vm_compute. discriminate.
Defined.

(** ** C5: a voter who has voted *)

(** C5 (counterexample).  Poll 0, given as the number 0, and a voter who
    has voted in it: the presence test takes the 0 for a missing field, the
    reply is "Missing required parameters" and [hasVoted] is never
    called. *)
Lemma C5_voted_in_poll_zero_other_reason :
  hasVoted (mock_ledger open_poll true (10 ^ 18) (Ok sample_tx))
           [] 0 (JString voter_address) = Ok true /\
  submit_vote numeric_BigNumber_from
    (mock_ledger open_poll true (10 ^ 18) (Ok sample_tx)) sample_id
    (mkRequest (JNumber 0) (JNumber 0) (JString voter_address)
               sample_signature JUndefined) [] =
  (missing_parameters, [])
  /\ missing_parameters <> already_voted.
Proof.
  split; [reflexivity|]. split; [vm_compute; reflexivity | discriminate].
Qed.

(** C5 (as implemented). For every request whose voter has voted in the
    poll according to the ledger's [hasVoted], the request fails and no
    transaction is sent; the reply is the already-voted one when the
    request passes the checks made before it: the fields are present and
    convertible and the candidate index is below the candidate count (or
    the poll details cannot be read). *)
Theorem C5_voted_never_submitted :
  forall BN L rid req h,
    (forall h' p, BN (pollId req) = Ok p ->
                  hasVoted L h' p (voter req) = Ok true) ->
    success (fst (submit_vote BN L rid req h)) = false /\
    submissions (snd (submit_vote BN L rid req h)) = submissions h /\
    (forall p c,
       missing_required req = false ->
       BN (pollId req) = Ok p -> BN (candidateId req) = Ok c ->
       (forall d, getPollDetails L h p = Ok d -> c < candidateCount d) ->
       submit_vote BN L rid req h =
       (already_voted, h ++ [EGetPollDetails p; EHasVoted p (voter req)])).
Proof.
  intros BN L rid req h Hv.
  destruct (check_eligibility_voted_stops BN L req h Hv) as [r Hr].
  destruct (submit_vote_stopped BN L rid req h r Hr) as [Heq Hsub].
  split; [|split].
  - rewrite Heq. cbn [fst].
    exact (check_eligibility_reply_fails BN L req h r Hr).
  - exact Hsub.
  - intros p c Hm Hp Hc Hd.
    pose proof (check_eligibility_voted BN L req h p c Hm Hp Hc Hd
                  (Hv _ p Hp)) as He.
    rewrite He in Hr. cbn [fst] in Hr. injection Hr as <-.
    rewrite Heq, He. reflexivity.
Qed.

(** C5 (instance): a valid request of a voter who has voted. *)
Lemma C5_voted_never_submitted_witness :
  submit_vote numeric_BigNumber_from
    (mock_ledger open_poll true (10 ^ 18) (Ok sample_tx)) sample_id
    vote_request [] =
  (already_voted, [EGetPollDetails 1; EHasVoted 1 (JString voter_address)]).
Proof.
  refine (proj2 (proj2 (C5_voted_never_submitted numeric_BigNumber_from
    (mock_ledger open_poll true (10 ^ 18) (Ok sample_tx)) sample_id
    vote_request [] _)) 1 0 _ _ _ _).
  - intros h' p _. reflexivity.
  - reflexivity.
  - reflexivity.
  - reflexivity.
  - intros d Hd. injection Hd as <-. reflexivity.
Defined.

(** ** C6: validation at the boundary *)

(** C6 (counterexample).  The voter is the number 5, not an address: the
    presence test and the conversions pass, the poll details are fetched
    from the ledger, and the reply is a 500. *)
Lemma C6_ill_typed_voter_reaches_ledger :
  submit_vote numeric_BigNumber_from
    (mock_ledger open_poll false (10 ^ 18) (Ok sample_tx)) sample_id
    (mkRequest (JNumber 1) (JNumber 0) (JNumber 5) sample_signature
               JUndefined) [] =
  (voter_status_failed, [EGetPollDetails 1; EHasVoted 1 (JNumber 5)])
  /\ status voter_status_failed = 500.
Proof. split; [vm_compute; reflexivity | reflexivity]. Qed.

(** C6 (as implemented). For every request in which one of [pollId],
    [candidateId], [voter], [signature] is absent, or in which [pollId] or
    [candidateId] is not convertible by [BigNumber.from], the reply is a 400
    and no ledger operation is invoked. The types of [voter] and [signature]
    are not checked at the boundary. *)
Theorem C6_absent_or_unconvertible_rejected :
  forall BN L rid req h,
    is_undefined (pollId req) = true \/
    is_undefined (candidateId req) = true \/
    is_undefined (voter req) = true \/
    is_undefined (signature req) = true \/
    (exists msg, BN (pollId req) = Throw msg) \/
    (exists msg, BN (candidateId req) = Throw msg) ->
    status (fst (submit_vote BN L rid req h)) = 400 /\
    success (fst (submit_vote BN L rid req h)) = false /\
    snd (submit_vote BN L rid req h) = h.
Proof.
  intros BN L rid req h H.
  unfold submit_vote. step_unfold. unfold missing_required.
  destruct H as [H|[H|[H|[H|[[msg H]|[msg H]]]]]].
  - destruct (pollId req); try discriminate. cbn. repeat split.
  - rewrite H, orb_true_r. cbn. repeat split.
  - destruct (voter req); try discriminate.
    cbn [truthy negb]. rewrite orb_true_r. cbn. repeat split.
  - destruct (signature req); try discriminate.
    cbn [truthy negb]. rewrite orb_true_r. cbn. repeat split.
  - rewrite H. destruct (_ || _); cbn; repeat split.
  - rewrite H. destruct (_ || _); [cbn; repeat split|].
    destruct (BN (pollId req)); cbn; repeat split.
Qed.

(** C6 (instance): the request without [signature]. *)
Lemma C6_absent_or_unconvertible_rejected_witness :
  status (fst (submit_vote numeric_BigNumber_from
    (mock_ledger open_poll false (10 ^ 18) (Ok sample_tx)) sample_id
    (mkRequest (JNumber 1) (JNumber 0) (JString voter_address) JUndefined
               JUndefined) [])) = 400 /\
  success (fst (submit_vote numeric_BigNumber_from
    (mock_ledger open_poll false (10 ^ 18) (Ok sample_tx)) sample_id
    (mkRequest (JNumber 1) (JNumber 0) (JString voter_address) JUndefined
               JUndefined) [])) = false /\
  snd (submit_vote numeric_BigNumber_from
    (mock_ledger open_poll false (10 ^ 18) (Ok sample_tx)) sample_id
    (mkRequest (JNumber 1) (JNumber 0) (JString voter_address) JUndefined
               JUndefined) []) = [].
Proof.
  apply C6_absent_or_unconvertible_rejected.
  right. right. right. left. reflexivity.
Defined.

(** ** C7: a transaction that is never mined *)

Lemma after_response_run L req p c tx h :
  monitor_run h (after_response L req p c tx h).
Proof.
  unfold after_response, start_monitoring.
  destruct (tx_wait L _ _).
  - apply monitor_run_step
      with (pre := [ESetTimeout 10000; ETxWait (hash tx); ESetTimeout 5000]);
      [repeat constructor | reflexivity |].
    rewrite <- app_assoc. apply checkTransactionConfirmation_run.
  - apply monitor_run_step
      with (pre := [ESetTimeout 10000; ETxWait (hash tx); ESetTimeout 5000;
                    ESetTimeout 5000; ETxWait (hash tx)]);
      [repeat constructor | reflexivity |].
    rewrite <- app_assoc. apply checkTransactionConfirmation_run.
  - apply monitor_run_step
      with (pre := [ESetTimeout 10000; ETxWait (hash tx); ESetTimeout 5000;
                    ESetTimeout 5000; ETxWait (hash tx)]);
      [repeat constructor | reflexivity |].
    rewrite <- app_assoc. apply checkTransactionConfirmation_run.
Qed.

(** Whatever the ledger answers, the monitor started by the handler returns
    after at most one transaction of its own. *)
Lemma start_monitoring_run L req p c tx h :
  monitor_run h (start_monitoring L req p c tx h).
Proof.
  unfold start_monitoring.
  apply monitor_run_step with (pre := [ESetTimeout 5000]);
    [repeat constructor | reflexivity |].
  apply checkTransactionConfirmation_run.
Qed.

(** C7 (counterexample).  No receipt ever, and the node no longer knows
    the transaction when the monitor looks it up: after the five attempts
    the monitor sends no replacement at all. *)
Lemma C7_dropped_transaction_not_replaced :
  start_monitoring forgetful_ledger vote_request 1 0 sample_tx [] =
  [ESetTimeout 5000; EGetTransactionReceipt "0xaaaa";
   ESetTimeout 5000; EGetTransactionReceipt "0xaaaa";
   ESetTimeout 10000; EGetTransactionReceipt "0xaaaa";
   ESetTimeout 15000; EGetTransactionReceipt "0xaaaa";
   ESetTimeout 20000; EGetTransactionReceipt "0xaaaa";
   EGetTransaction "0xaaaa"]
  /\ submissions
       (start_monitoring forgetful_ledger vote_request 1 0 sample_tx []) =
     0%nat.
Proof. split; vm_compute; reflexivity. Qed.

(** C7 (as implemented). When the ledger never has a receipt for the
    submitted transaction and returns the transaction when the monitor looks
    it up, the monitor looks for the receipt five times, after 5, 5, 10, 15
    and 20 seconds, then reads the transaction and sends exactly one
    replacement with the nonce of the original and with higher fee and
    priority fee than the original's; it looks at most once at the
    replacement's receipt and returns. *)
Theorem C7_stuck_transaction_replaced_once :
  forall L req p c tx h originalTx,
    (forall h', getTransactionReceipt L h' (hash tx) = Ok None) ->
    (forall h', getTransaction L h' (hash tx) = Ok (Some originalTx)) ->
    (exists tail,
       start_monitoring L req p c tx h =
       h ++ [ESetTimeout 5000; EGetTransactionReceipt (hash tx);
             ESetTimeout 5000; EGetTransactionReceipt (hash tx);
             ESetTimeout 10000; EGetTransactionReceipt (hash tx);
             ESetTimeout 15000; EGetTransactionReceipt (hash tx);
             ESetTimeout 20000; EGetTransactionReceipt (hash tx);
             EGetTransaction (hash tx);
             metaVote_event req p c
               (replacement_options (tx_nonce originalTx))] ++ tail /\
       (tail = [] \/
        exists replacementTx,
          tail = [ESetTimeout 10000;
                  EGetTransactionReceipt (hash replacementTx)])) /\
    submissions (start_monitoring L req p c tx h) = S (submissions h) /\
    nonce (replacement_options (tx_nonce originalTx)) =
      Some (tx_nonce originalTx) /\
    maxFeePerGas original_options <
      maxFeePerGas (replacement_options (tx_nonce originalTx)) /\
    maxPriorityFeePerGas original_options <
      maxPriorityFeePerGas (replacement_options (tx_nonce originalTx)).
Proof.
  intros L req p c tx h otx H1 H2.
  assert (Hrun : exists tail,
    start_monitoring L req p c tx h =
    h ++ [ESetTimeout 5000; EGetTransactionReceipt (hash tx);
          ESetTimeout 5000; EGetTransactionReceipt (hash tx);
          ESetTimeout 10000; EGetTransactionReceipt (hash tx);
          ESetTimeout 15000; EGetTransactionReceipt (hash tx);
          ESetTimeout 20000; EGetTransactionReceipt (hash tx);
          EGetTransaction (hash tx);
          metaVote_event req p c (replacement_options (tx_nonce otx))]
      ++ tail /\
    (tail = [] \/
     exists replacementTx,
       tail = [ESetTimeout 10000;
               EGetTransactionReceipt (hash replacementTx)])).
  { unfold start_monitoring.
    do 4 poll_again H1. poll_last H1.
    unfold replace_stuck. rewrite H2.
    repeat rewrite <- app_assoc. cbn [app].
    change (5000 * Z.of_nat 1) with 5000.
    change (5000 * Z.of_nat 2) with 10000.
    change (5000 * Z.of_nat 3) with 15000.
    change (5000 * Z.of_nat 4) with 20000.
    destruct (metaVote_call L req p c _ _) as [rtx|].
    - exists [ESetTimeout 10000; EGetTransactionReceipt (hash rtx)].
      rewrite <- app_assoc. cbn [app]. split; [reflexivity|].
      right. exists rtx. reflexivity.
    - exists []. split; [reflexivity | left; reflexivity]. }
  split; [exact Hrun|]. split.
  - destruct Hrun as (tail & -> & Htail).
    rewrite !submissions_app.
    destruct Htail as [->|[rtx ->]]; cbn; lia.
  - repeat split.
Qed.

(** C7 (instance): the ledger on which nothing is mined. *)
Lemma C7_stuck_transaction_replaced_once_witness :
  submissions (start_monitoring silent_ledger vote_request 1 0 sample_tx []) =
  1%nat.
Proof.
  refine (proj1 (proj2 (C7_stuck_transaction_replaced_once silent_ledger
    vote_request 1 0 sample_tx [] sample_tx _ _))).
  - intros h'. reflexivity.
  - intros h'. reflexivity.
Defined.

(** ** C8: a nonce conflict at submission *)

(** C8 (counterexample).  The ledger refuses the submission because the
    nonce has been used: the caller gets a 500 with the nonce message and
    the handler has sent one transaction, not two. *)
Lemma C8_nonce_conflict_not_retried :
  submit_vote numeric_BigNumber_from
    (mock_ledger open_poll false (10 ^ 18)
                 (Throw "nonce has already been used"))
    sample_id vote_request [] =
  (nonce_error,
   [EGetPollDetails 1; EHasVoted 1 (JString voter_address);
    EGetBalance relayer_address;
    EMetaVote 1 0 (JString voter_address) (JArray []) sample_signature
              original_options])
  /\ status nonce_error = 500 /\ success nonce_error = false.
Proof. repeat split; vm_compute; reflexivity. Qed.

(** C8 (as implemented). When the submission fails with a nonce conflict (an
    error whose message contains "nonce" and none of the phrases tested
    before it), the relayer does not retry: it has sent that one transaction
    and replies to the caller with status 500 and the message "Transaction
    nonce error. Please try again."; trying again is left to the caller. *)
Theorem C8_nonce_error_returned_to_caller :
  forall BN L rid req h ids h1 msg,
    check_eligibility BN L req h = (inr ids, h1) ->
    metaVote_call L req (fst ids) (snd ids) original_options h1 = Throw msg ->
    includes msg "nonce" = true ->
    includes msg "Bad signature" = false ->
    includes msg "Already voted" = false ->
    includes msg "Insufficient relayer funds" = false ->
    includes msg "doesn't have enough funds" = false ->
    includes msg "insufficient funds" = false ->
    submit_vote BN L rid req h =
      (nonce_error,
       h1 ++ [metaVote_event req (fst ids) (snd ids) original_options]) /\
    submissions (snd (submit_vote BN L rid req h)) = S (submissions h).
Proof.
  intros BN L rid req h ids h1 msg He Hm Hn H1 H2 H3 H4 H5.
  assert (Heq : submit_vote BN L rid req h =
                (nonce_error,
                 h1 ++ [metaVote_event req (fst ids) (snd ids)
                                       original_options])).
  { unfold submit_vote, bind. rewrite He.
    unfold send_vote, bind, call, pure, reply. rewrite Hm.
    unfold submission_error. rewrite H1, H2, H3, H4, H5, Hn. reflexivity. }
  split; [exact Heq|].
  rewrite Heq. cbn [snd].
  destruct (check_eligibility_reads BN L req h) as (tr & Htr & Hreads).
  rewrite He in Htr. cbn [snd] in Htr. subst h1.
  rewrite !submissions_app, (reads_no_submission tr Hreads).
  unfold metaVote_event. cbn. lia.
Qed.

(** C8 (instance): the ledger answers "nonce has already been used". *)
Lemma C8_nonce_error_returned_to_caller_witness :
  submissions (snd (submit_vote numeric_BigNumber_from
    (mock_ledger open_poll false (10 ^ 18)
                 (Throw "nonce has already been used"))
    sample_id vote_request [])) = 1%nat.
Proof.
  refine (proj2 (C8_nonce_error_returned_to_caller numeric_BigNumber_from
    (mock_ledger open_poll false (10 ^ 18)
                 (Throw "nonce has already been used"))
    sample_id vote_request [] (1, 0)
    (eligibility_reads
       (mock_ledger open_poll false (10 ^ 18)
                    (Throw "nonce has already been used"))
       1 (JString voter_address))
    "nonce has already been used" _ _ _ _ _ _ _ _)).
  all: vm_compute; reflexivity.
Defined.

(** ** C9: the options of the original submission *)

Lemma submission_error_fails msg : success (submission_error msg) = false.
Proof.
  unfold submission_error.
  repeat match goal with
         | |- context [if ?b then _ else _] => destruct b
         end; reflexivity.
Qed.

Lemma read_is_no_metaVote (tr : History) p c v m s o :
  forallb is_read tr = true -> ~ In (EMetaVote p c v m s o) tr.
Proof.
  intros Hreads Hin.
  rewrite forallb_forall in Hreads. specialize (Hreads _ Hin).
  discriminate.
Qed.

(** C9.  Every transaction that the handler sends without a nonce of its
    own, that is every original submission, carries the gas limit 500000,
    the fee cap of 80 gwei and the priority fee of 30 gwei, whatever the
    ledger reports; a successful reply means that such a transaction was
    sent.  Before it the handler makes the three read calls only. *)
Theorem C9_original_submission_fixed_options :
  forall BN L rid req h,
    exists tr,
      snd (submit_vote BN L rid req h) = h ++ tr /\
      (forall p c v m s o,
         In (EMetaVote p c v m s o) tr -> nonce o = None ->
         o = original_options /\
         gasLimit o = 500000 /\
         maxFeePerGas o = 80 * 10 ^ 9 /\
         maxPriorityFeePerGas o = 30 * 10 ^ 9) /\
      (success (fst (submit_vote BN L rid req h)) = true ->
       exists reads p c,
         forallb is_read reads = true /\
         firstn (S (List.length reads)) tr =
         reads ++ [EMetaVote p c (voter req) (formattedMerkleProof req)
                             (signature req) original_options]).
Proof.
  intros BN L rid req h.
  destruct (check_eligibility_reads BN L req h) as (tr1 & Htr1 & Hreads).
  pose proof (check_eligibility_reply_fails BN L req h) as Hfail.
  unfold submit_vote, bind.
  destruct (check_eligibility BN L req h) as [[r|ids] h1];
    cbn [fst snd] in *; subst h1.
  - exists tr1. split; [reflexivity|]. split.
    + intros p c v m s o Hin _.
      exfalso. exact (read_is_no_metaVote tr1 p c v m s o Hreads Hin).
    + rewrite (Hfail r eq_refl). discriminate.
  - unfold send_vote, bind, call, pure, reply.
    destruct (metaVote_call L req (fst ids) (snd ids) original_options
                            (h ++ tr1)) as [tx|msg]; cbn [fst snd].
    + destruct (after_response_run L req (fst ids) (snd ids) tx
                  ((h ++ tr1) ++
                   [metaVote_event req (fst ids) (snd ids) original_options]))
        as (tr2 & -> & Hmon & _).
      exists (tr1 ++ metaVote_event req (fst ids) (snd ids) original_options
                  :: tr2).
      split; [repeat rewrite <- app_assoc; reflexivity|]. split.
      * intros p c v m s o Hin Hnonce.
        apply in_app_or in Hin. destruct Hin as [Hin|[Hin|Hin]].
        -- exfalso. exact (read_is_no_metaVote tr1 p c v m s o Hreads Hin).
        -- unfold metaVote_event in Hin. injection Hin as _ _ _ _ _ <-.
           repeat split.
        -- rewrite Forall_forall in Hmon. specialize (Hmon _ Hin).
           destruct Hmon as [n ->]. discriminate.
      * intros _. exists tr1, (fst ids), (snd ids).
        split; [exact Hreads|].
        rewrite firstn_app, firstn_all2 by lia.
        replace (S (List.length tr1) - List.length tr1)%nat with 1%nat by lia.
        reflexivity.
    + exists (tr1 ++ [metaVote_event req (fst ids) (snd ids)
                                     original_options]).
      split; [rewrite app_assoc; reflexivity|]. split.
      * intros p c v m s o Hin Hnonce.
        apply in_app_or in Hin. destruct Hin as [Hin|[Hin|[]]].
        -- exfalso. exact (read_is_no_metaVote tr1 p c v m s o Hreads Hin).
        -- unfold metaVote_event in Hin. injection Hin as _ _ _ _ _ <-.
           repeat split.
      * rewrite submission_error_fails. discriminate.
Qed.

(** ** C10: the presence test *)

(** A request that passes the presence test and the conversions calls the
    ledger, first for the poll details. *)
Lemma submit_vote_reaches_ledger BN L rid req h p c :
  missing_required req = false ->
  BN (pollId req) = Ok p -> BN (candidateId req) = Ok c ->
  exists tr, snd (submit_vote BN L rid req h) = h ++ EGetPollDetails p :: tr.
Proof.
  intros Hm Hp Hc.
  assert (He : exists tr1,
             snd (check_eligibility BN L req h) =
             h ++ EGetPollDetails p :: tr1).
  { step_unfold. rewrite Hm, Hp, Hc. cbn [fst snd].
    repeat (case_step; cbn [fst snd]).
    all: repeat rewrite <- app_assoc; cbn [app].
    all: eexists; reflexivity. }
  destruct He as [tr1 He].
  unfold submit_vote, bind.
  destruct (check_eligibility BN L req h) as [[r|ids] h1];
    cbn [fst snd] in *; subst h1.
  - exists tr1. reflexivity.
  - unfold send_vote, bind, call, pure, reply.
    destruct (metaVote_call L req (fst ids) (snd ids) original_options _)
      as [tx|msg]; cbn [fst snd].
    + destruct (after_response_run L req (fst ids) (snd ids) tx
                  ((h ++ EGetPollDetails p :: tr1) ++
                   [metaVote_event req (fst ids) (snd ids) original_options]))
        as (tr2 & -> & _).
      eexists. repeat rewrite <- app_assoc. cbn [app]. reflexivity.
    + eexists. rewrite <- app_assoc. cbn [app]. reflexivity.
Qed.

(** C10.  A request whose [pollId] is falsy (the number 0 for one) gets the
    400 "Missing required parameters" reply and no ledger operation is
    invoked.  A request whose [candidateId] is the number 0, with the three
    other fields truthy, passes the presence test: once the two identifiers
    are converted, the handler calls the ledger for the poll details. *)
Theorem C10_falsy_pollId_rejected_zero_candidateId_passes :
  forall BN L rid h p c v s m p' pid,
    truthy p = false ->
    truthy p' = true -> truthy v = true -> truthy s = true ->
    BN p' = Ok pid -> BN (JNumber 0) = Ok 0 ->
    submit_vote BN L rid (mkRequest p c v s m) h = (missing_parameters, h) /\
    status missing_parameters = 400 /\
    missing_required (mkRequest p (JNumber 0) v s m) = true /\
    missing_required (mkRequest p' (JNumber 0) v s m) = false /\
    exists tr,
      snd (submit_vote BN L rid (mkRequest p' (JNumber 0) v s m) h) =
      h ++ EGetPollDetails pid :: tr.
Proof.
  intros BN L rid h p c v s m p' pid Hp Hp' Hv Hs Hpid Hzero.
  assert (Hpass : missing_required (mkRequest p' (JNumber 0) v s m) = false).
  { unfold missing_required. cbn [pollId candidateId voter signature].
    rewrite Hp', Hv, Hs. reflexivity. }
  split; [|split; [|split; [|split]]].
  - unfold submit_vote, check_eligibility, validate, missing_required,
      bind, reply.
    cbn [pollId candidateId voter signature]. rewrite Hp. reflexivity.
  - reflexivity.
  - unfold missing_required. cbn [pollId]. rewrite Hp. reflexivity.
  - exact Hpass.
  - apply (submit_vote_reaches_ledger BN L rid _ h pid 0 Hpass Hpid Hzero).
Qed.

(** C10 (instance): [pollId] 0 against [pollId] 1, both with [candidateId] 0. *)
Lemma C10_falsy_pollId_rejected_zero_candidateId_passes_witness :
  submit_vote numeric_BigNumber_from
    (mock_ledger open_poll false (10 ^ 18) (Ok sample_tx)) sample_id
    (mkRequest (JNumber 0) (JNumber 0) (JString voter_address)
               sample_signature JUndefined) [] =
  (missing_parameters, []) /\
  missing_required vote_request = false.
Proof.
  destruct (C10_falsy_pollId_rejected_zero_candidateId_passes
    numeric_BigNumber_from
    (mock_ledger open_poll false (10 ^ 18) (Ok sample_tx)) sample_id []
    (JNumber 0) (JNumber 0) (JString voter_address) sample_signature
    JUndefined (JNumber 1) 1
    eq_refl eq_refl eq_refl eq_refl eq_refl eq_refl)
    as (Hrejected & _ & _ & Hpass & _).
  split; [exact Hrejected | exact Hpass].
Defined.

(** * Further properties of the relayer *)

(** ** Substrings *)

Lemma prefix_append (sub rest : string) :
  String.prefix sub (String.append sub rest) = true.
Proof.
  induction sub as [|ch sub IH]; cbn.
  - destruct rest; reflexivity.
  - destruct (ascii_dec ch ch) as [_|Hne]; [exact IH | contradiction].
Qed.

Lemma includes_prefix (s sub : string) :
  String.prefix sub s = true -> includes s sub = true.
Proof.
  intros H. destruct s; cbn [includes]; rewrite H; reflexivity.
Qed.

(** [includes] finds a substring wherever it stands. *)
Lemma includes_append (before sub rest : string) :
  includes (String.append before (String.append sub rest)) sub = true.
Proof.
  induction before as [|ch before IH].
  - cbn [String.append]. apply includes_prefix, prefix_append.
  - cbn [String.append includes]. rewrite IH. apply orb_true_r.
Qed.

(** ** What a submission presupposes *)

(** A request passes the eligibility phase only on these answers of the
    ledger, read during the request itself. *)
Lemma check_eligibility_passed BN L req h ids h1 :
  check_eligibility BN L req h = (inr ids, h1) ->
  missing_required req = false /\
  BN (pollId req) = Ok (fst ids) /\
  BN (candidateId req) = Ok (snd ids) /\
  (forall d, getPollDetails L h (fst ids) = Ok d ->
             snd ids < candidateCount d) /\
  hasVoted L (h ++ [EGetPollDetails (fst ids)]) (fst ids) (voter req) =
    Ok false /\
  (exists b,
     getBalance L (h ++ [EGetPollDetails (fst ids);
                         EHasVoted (fst ids) (voter req)])
                (wallet_address L) = Ok b /\
     estimatedGasCost <= b) /\
  (exists v, voter req = JString v /\
             lower v <> lower (wallet_address L)) /\
  h1 = h ++ eligibility_reads L (fst ids) (voter req).
Proof.
  step_unfold.
  destruct (missing_required req); [discriminate|].
  destruct (BN (pollId req)) as [p|]; [|discriminate].
  destruct (BN (candidateId req)) as [c|]; [|discriminate].
  cbn [fst snd].
  destruct (getPollDetails L h p) as [d|] eqn:Hg;
    [destruct (candidateCount d <=? c) eqn:Hle; [discriminate|]|];
    (destruct (hasVoted L (h ++ [EGetPollDetails p]) p (voter req))
       as [[|]|] eqn:Hv; try discriminate);
    repeat rewrite <- app_assoc; cbn [app];
    (destruct (getBalance L _ (wallet_address L)) as [b|] eqn:Hb;
       [destruct (b <? estimatedGasCost) eqn:Hlt; [discriminate|]
       |discriminate]);
    (destruct (voter req) as [| | | | |v| |] eqn:Hs;
       cbn [toLowerCase]; try discriminate);
    (destruct (String.eqb (lower v) (lower (wallet_address L))) eqn:He;
       [discriminate|]);
    intros H; injection H as <- <-; cbn [fst snd];
    (split; [reflexivity|]); (split; [reflexivity|]);
    (split; [reflexivity|]);
    (split;
       [intros d0 Hd0; rewrite Hg in Hd0;
        first [discriminate
              | injection Hd0 as <-; apply Z.leb_gt; exact Hle]|]);
    (split; [exact Hv|]);
    (split; [exists b; split; [exact Hb | apply Z.ltb_ge; exact Hlt]|]);
    (split; [exists v; split;
               [reflexivity | apply String.eqb_neq; exact He]|]);
    reflexivity.
Qed.

(** The replies of the eligibility phase carry a 400 or a 500 and no
    transaction hash. *)
Lemma check_eligibility_reply_shape BN L req h r :
  fst (check_eligibility BN L req h) = inl r ->
  (status r = 400 \/ status r = 500) /\ submitted r = None.
Proof.
  step_unfold.
  repeat (case_step; cbn [fst snd]); intros H;
    try discriminate; injection H as <-; cbn; auto.
Qed.

Lemma submission_error_shape msg :
  (status (submission_error msg) = 400 \/
   status (submission_error msg) = 500) /\
  submitted (submission_error msg) = None.
Proof.
  unfold submission_error.
  repeat match goal with
         | |- context [if ?b then _ else _] => destruct b
         end; cbn; auto.
Qed.

(** Once the eligibility phase is passed, the handler sends the original
    transaction; what follows it is the monitor's and comes only when the
    ledger took the transaction. *)
Lemma submit_vote_sends BN L rid req h ids h1 :
  check_eligibility BN L req h = (inr ids, h1) ->
  exists tr,
    snd (submit_vote BN L rid req h) =
    h1 ++ metaVote_event req (fst ids) (snd ids) original_options :: tr /\
    Forall monitor_event tr /\ (submissions tr <= 1)%nat /\
    (success (fst (submit_vote BN L rid req h)) = false -> tr = []).
Proof.
  intros He. unfold submit_vote, bind. rewrite He.
  unfold send_vote, bind, call, pure, reply.
  destruct (metaVote_call L req (fst ids) (snd ids) original_options h1)
    as [tx|msg]; cbn [fst snd].
  - destruct (after_response_run L req (fst ids) (snd ids) tx
                (h1 ++ [metaVote_event req (fst ids) (snd ids)
                                       original_options]))
      as (tr & -> & Hmon & Hle).
    exists tr. rewrite <- app_assoc. cbn [app].
    repeat split; try assumption. discriminate.
  - exists []. repeat split; [constructor | cbn; lia].
Qed.

(** ** The reply and what was done *)

(** X1. Success is never reported falsely: the reply has status 200, 400 or
    500; it says success exactly with status 200, and then the request
    passed the eligibility phase, the ledger took the transaction, and the
    reply carries that transaction's hash and the two identifiers as they
    were received. A failure reply never carries a transaction hash. *)
Theorem success_means_accepted :
  forall BN L rid req h,
    (status (fst (submit_vote BN L rid req h)) = 200 \/
     status (fst (submit_vote BN L rid req h)) = 400 \/
     status (fst (submit_vote BN L rid req h)) = 500) /\
    (success (fst (submit_vote BN L rid req h)) = true <->
     status (fst (submit_vote BN L rid req h)) = 200) /\
    (success (fst (submit_vote BN L rid req h)) = true ->
     exists ids h1 tx,
       check_eligibility BN L req h = (inr ids, h1) /\
       metaVote_call L req (fst ids) (snd ids) original_options h1 = Ok tx /\
       submitted (fst (submit_vote BN L rid req h)) =
       Some (mkSubmitted (hash tx) (pollId req) (candidateId req) rid)) /\
    (success (fst (submit_vote BN L rid req h)) = false ->
     submitted (fst (submit_vote BN L rid req h)) = None).
Proof.
  intros BN L rid req h.
  pose proof (check_eligibility_reply_fails BN L req h) as Hfail.
  pose proof (check_eligibility_reply_shape BN L req h) as Hshape.
  unfold submit_vote, bind.
  destruct (check_eligibility BN L req h) as [[r|ids] h1] eqn:He;
    cbn [fst snd] in *.
  - specialize (Hfail r eq_refl).
    destruct (Hshape r eq_refl) as [Hst Hnone].
    rewrite Hfail. repeat split; try tauto; try discriminate.
    + destruct Hst as [Hst|Hst]; rewrite Hst; discriminate.
  - unfold send_vote, bind, call, pure, reply.
    destruct (metaVote_call L req (fst ids) (snd ids) original_options h1)
      as [tx|msg] eqn:Hm; cbn [fst snd].
    + cbn. repeat split; auto; try discriminate.
      intros _. exists ids, h1, tx. repeat split. exact Hm.
    + destruct (submission_error_shape msg) as [Hst Hnone].
      rewrite submission_error_fails.
      repeat split; try tauto; try discriminate.
      destruct Hst as [Hst|Hst]; rewrite Hst; discriminate.
Qed.

(** X2. No transaction without fresh reads: whenever the handler sends a
    transaction, it has during this very request read from the ledger that
    the voter has not voted and that the relayer's balance covers the
    estimated gas cost, the voter is a string other than the relayer's
    address, the candidate index is below the candidate count if the poll
    details could be read, and the three reads come first in the history. *)
Theorem submission_follows_fresh_reads :
  forall BN L rid req h,
    submissions (snd (submit_vote BN L rid req h)) <> submissions h ->
    exists p c b v tr,
      BN (pollId req) = Ok p /\ BN (candidateId req) = Ok c /\
      (forall d, getPollDetails L h p = Ok d -> c < candidateCount d) /\
      hasVoted L (h ++ [EGetPollDetails p]) p (voter req) = Ok false /\
      getBalance L (h ++ [EGetPollDetails p; EHasVoted p (voter req)])
                 (wallet_address L) = Ok b /\
      estimatedGasCost <= b /\
      voter req = JString v /\ lower v <> lower (wallet_address L) /\
      snd (submit_vote BN L rid req h) =
      h ++ eligibility_reads L p (voter req)
        ++ metaVote_event req p c original_options :: tr.
Proof.
  intros BN L rid req h Hsent.
  destruct (check_eligibility BN L req h) as [[r|ids] h1] eqn:He.
  - exfalso. apply Hsent.
    apply (submit_vote_stopped BN L rid req h r). rewrite He. reflexivity.
  - destruct (check_eligibility_passed BN L req h ids h1 He)
      as (_ & Hp & Hc & Hd & Hv & (b & Hb & Hle) & (v & Hs & Hne) & ->).
    destruct (submit_vote_sends BN L rid req h ids _ He) as (tr & Htr & _).
    exists (fst ids), (snd ids), b, v, tr.
    rewrite Htr, <- app_assoc. repeat split; assumption.
Qed.

(** X2 (instance): a valid vote on an open poll. *)
Lemma submission_follows_fresh_reads_witness :
  exists p c b v tr,
    numeric_BigNumber_from (pollId vote_request) = Ok p /\
    numeric_BigNumber_from (candidateId vote_request) = Ok c /\
    (forall d,
       getPollDetails (mock_ledger open_poll false (10 ^ 18) (Ok sample_tx))
                      [] p = Ok d -> c < candidateCount d) /\
    hasVoted (mock_ledger open_poll false (10 ^ 18) (Ok sample_tx))
             ([] ++ [EGetPollDetails p]) p (voter vote_request) = Ok false /\
    getBalance (mock_ledger open_poll false (10 ^ 18) (Ok sample_tx))
      ([] ++ [EGetPollDetails p; EHasVoted p (voter vote_request)])
      (wallet_address (mock_ledger open_poll false (10 ^ 18) (Ok sample_tx)))
      = Ok b /\
    estimatedGasCost <= b /\
    voter vote_request = JString v /\
    lower v <>
    lower (wallet_address
             (mock_ledger open_poll false (10 ^ 18) (Ok sample_tx))) /\
    snd (submit_vote numeric_BigNumber_from
           (mock_ledger open_poll false (10 ^ 18) (Ok sample_tx))
           sample_id vote_request []) =
    [] ++ eligibility_reads
            (mock_ledger open_poll false (10 ^ 18) (Ok sample_tx)) p
            (voter vote_request)
       ++ metaVote_event vote_request p c original_options :: tr.
Proof.
  apply (submission_follows_fresh_reads numeric_BigNumber_from
           (mock_ledger open_poll false (10 ^ 18) (Ok sample_tx))
           sample_id vote_request []).
  vm_compute. discriminate.
Defined.

(** ** Failures of the submission *)

(** X3. A ledger error that mentions "Bad signature" anywhere in its message
    is answered with status 400 and "Invalid signature provided for vote
    verification", whatever else the message contains; one transaction was
    sent and nothing follows. *)
Theorem bad_signature_is_reported :
  forall BN L rid req h ids h1 before rest,
    check_eligibility BN L req h = (inr ids, h1) ->
    metaVote_call L req (fst ids) (snd ids) original_options h1 =
      Throw (String.append before (String.append "Bad signature" rest)) ->
    submit_vote BN L rid req h =
    (failure 400 "Invalid signature provided for vote verification",
     h1 ++ [metaVote_event req (fst ids) (snd ids) original_options]).
Proof.
  intros BN L rid req h ids h1 before rest He Hm.
  unfold submit_vote, bind. rewrite He.
  unfold send_vote, bind, call, pure, reply. rewrite Hm.
  unfold submission_error. rewrite includes_append. reflexivity.
Qed.

(** X3 (instance): the contract reverts with "Bad signature". *)
Lemma bad_signature_is_reported_witness :
  submit_vote numeric_BigNumber_from
    (mock_ledger open_poll false (10 ^ 18)
       (Throw "execution reverted: Bad signature (nonce 7, gas 500000)"))
    sample_id vote_request [] =
  (failure 400 "Invalid signature provided for vote verification",
   [EGetPollDetails 1; EHasVoted 1 (JString voter_address);
    EGetBalance relayer_address;
    EMetaVote 1 0 (JString voter_address) (JArray []) sample_signature
              original_options]).
Proof.
  apply (bad_signature_is_reported numeric_BigNumber_from
           (mock_ledger open_poll false (10 ^ 18)
              (Throw "execution reverted: Bad signature (nonce 7, gas 500000)"))
           sample_id vote_request [] (1, 0)
           [EGetPollDetails 1; EHasVoted 1 (JString voter_address);
            EGetBalance relayer_address]
           "execution reverted: " " (nonce 7, gas 500000)").
  - vm_compute. reflexivity.
  - reflexivity.
Defined.

(** X4. For every request and every ledger the handler sends at most two
    transactions, the original and one replacement; when the reply is a
    failure it has sent at most one, and none when the request stopped in
    the eligibility phase. *)
Theorem at_most_two_transactions :
  forall BN L rid req h,
    (submissions (snd (submit_vote BN L rid req h)) <=
     submissions h + 2)%nat /\
    (success (fst (submit_vote BN L rid req h)) = false ->
     (submissions (snd (submit_vote BN L rid req h)) <=
      submissions h + 1)%nat) /\
    (forall r, fst (check_eligibility BN L req h) = inl r ->
               submissions (snd (submit_vote BN L rid req h)) =
               submissions h).
Proof.
  intros BN L rid req h.
  destruct (check_eligibility_reads BN L req h) as (tr1 & Htr1 & Hreads).
  destruct (check_eligibility BN L req h) as [[r|ids] h1] eqn:He;
    cbn [fst snd] in *; subst h1.
  - assert (Hs : submissions (snd (submit_vote BN L rid req h)) =
                 submissions h).
    { apply (submit_vote_stopped BN L rid req h r).
      rewrite He. reflexivity. }
    rewrite Hs. repeat split; intros; lia.
  - destruct (submit_vote_sends BN L rid req h ids _ He)
      as (tr & Htr & _ & Hle & Hfail).
    rewrite Htr.
    assert (Hcount : forall tail,
              submissions ((h ++ tr1) ++
                 metaVote_event req (fst ids) (snd ids) original_options
                 :: tail) = (submissions h + 1 + submissions tail)%nat).
    { intros tail.
      change (metaVote_event req (fst ids) (snd ids) original_options
              :: tail)
        with ([metaVote_event req (fst ids) (snd ids) original_options]
              ++ tail).
      rewrite !submissions_app, (reads_no_submission tr1 Hreads).
      unfold metaVote_event. cbn. lia. }
    rewrite Hcount. repeat split.
    + lia.
    + intros Hf. rewrite (Hfail Hf). cbn. lia.
    + intros r Hr. discriminate.
Qed.

(** ** The checks before the submission *)

(** X5. The candidate bound: when the poll details can be read, the reply is
    "Invalid candidate ID" exactly when the candidate index is not below the
    candidate count (an index equal to the count is refused), and then the
    poll details are the only thing read from the ledger. *)
Theorem invalid_candidate_bound :
  forall BN L rid req h p c d,
    missing_required req = false ->
    BN (pollId req) = Ok p -> BN (candidateId req) = Ok c ->
    getPollDetails L h p = Ok d ->
    (candidateCount d <= c ->
     submit_vote BN L rid req h =
     (invalid_candidate, h ++ [EGetPollDetails p])) /\
    (c < candidateCount d ->
     fst (submit_vote BN L rid req h) <> invalid_candidate).
Proof.
  intros BN L rid req h p c d Hm Hp Hc Hd. split.
  - intros Hle. unfold submit_vote. step_unfold.
    rewrite Hm, Hp, Hc. cbn [fst snd]. rewrite Hd.
    destruct (candidateCount d <=? c) eqn:Hb;
      [reflexivity | apply Z.leb_gt in Hb; lia].
  - intros Hlt. unfold submit_vote. step_unfold.
    rewrite Hm, Hp, Hc. cbn [fst snd]. rewrite Hd.
    destruct (candidateCount d <=? c) eqn:Hb;
      [apply Z.leb_le in Hb; lia|].
    unfold submission_error.
    repeat (case_step; cbn [fst snd]); discriminate.
Qed.

(** X5 (instance): candidate 3 of a poll with three candidates. *)
Lemma invalid_candidate_bound_witness :
  submit_vote numeric_BigNumber_from
    (mock_ledger open_poll false (10 ^ 18) (Ok sample_tx)) sample_id
    (mkRequest (JNumber 1) (JNumber 3) (JString voter_address)
               sample_signature JUndefined) [] =
  (invalid_candidate, [EGetPollDetails 1]).
Proof.
  refine (proj1 (invalid_candidate_bound numeric_BigNumber_from
    (mock_ledger open_poll false (10 ^ 18) (Ok sample_tx)) sample_id
    (mkRequest (JNumber 1) (JNumber 3) (JString voter_address)
               sample_signature JUndefined) [] 1 3 open_poll
    eq_refl eq_refl eq_refl eq_refl) _).
  vm_compute. discriminate.
Defined.

(** X6. The candidate check fails open: when the poll details cannot be
    read, the candidate index is not checked at all, and a vote that passes
    the other checks is sent to the ledger whatever its candidate index. *)
Theorem unreadable_poll_is_not_checked :
  forall BN L rid req h p c v b msg,
    missing_required req = false ->
    BN (pollId req) = Ok p -> BN (candidateId req) = Ok c ->
    getPollDetails L h p = Throw msg ->
    hasVoted L (h ++ [EGetPollDetails p]) p (voter req) = Ok false ->
    getBalance L (h ++ [EGetPollDetails p; EHasVoted p (voter req)])
               (wallet_address L) = Ok b ->
    estimatedGasCost <= b ->
    voter req = JString v -> lower v <> lower (wallet_address L) ->
    exists tr,
      snd (submit_vote BN L rid req h) =
      h ++ eligibility_reads L p (voter req)
        ++ metaVote_event req p c original_options :: tr.
Proof.
  intros BN L rid req h p c v b msg Hm Hp Hc Hd Hv Hb Hle Hs Hne.
  assert (He : check_eligibility BN L req h =
               (inr (p, c), h ++ eligibility_reads L p (voter req))).
  { step_unfold. rewrite Hm, Hp, Hc. cbn [fst snd]. rewrite Hd, Hv.
    repeat rewrite <- app_assoc. cbn [app]. rewrite Hb.
    destruct (b <? estimatedGasCost) eqn:Hlt;
      [apply Z.ltb_lt in Hlt; lia|].
    rewrite Hs. cbn [toLowerCase].
    destruct (String.eqb (lower v) (lower (wallet_address L))) eqn:Heq;
      [apply String.eqb_eq in Heq; contradiction|].
    reflexivity. }
  destruct (submit_vote_sends BN L rid req h (p, c) _ He) as (tr & Htr & _).
  exists tr. rewrite Htr, <- app_assoc. reflexivity.
Qed.

(** X6 (instance): candidate 99 on a ledger that cannot return the poll. *)
Lemma unreadable_poll_is_not_checked_witness :
  exists tr,
    snd (submit_vote numeric_BigNumber_from
           (mkLedger relayer_address
              (fun _ _ => Throw "call revert exception")
              (fun _ _ _ => Ok false) (fun _ _ => Ok (10 ^ 18))
              (fun _ _ _ _ _ _ _ => Throw "execution reverted")
              (fun _ _ => WaitTimeout) (fun _ _ => Ok None)
              (fun _ _ => Ok None))
           sample_id
           (mkRequest (JNumber 1) (JNumber 99) (JString voter_address)
                      sample_signature JUndefined) []) =
    [] ++ [EGetPollDetails 1; EHasVoted 1 (JString voter_address);
           EGetBalance relayer_address]
       ++ EMetaVote 1 99 (JString voter_address) (JArray [])
                    sample_signature original_options :: tr.
Proof.
  apply (unreadable_poll_is_not_checked numeric_BigNumber_from
           (mkLedger relayer_address
              (fun _ _ => Throw "call revert exception")
              (fun _ _ _ => Ok false) (fun _ _ => Ok (10 ^ 18))
              (fun _ _ _ _ _ _ _ => Throw "execution reverted")
              (fun _ _ => WaitTimeout) (fun _ _ => Ok None)
              (fun _ _ => Ok None))
           sample_id
           (mkRequest (JNumber 1) (JNumber 99) (JString voter_address)
                      sample_signature JUndefined) []
           1 99 voter_address (10 ^ 18) "call revert exception").
  all: try reflexivity.
  - vm_compute. discriminate.
  - vm_compute. discriminate.
Defined.

(** X7. The voter check fails closed: when [hasVoted] cannot be read, the
    reply is a 500 and nothing is sent. *)
Theorem unreadable_vote_status_stops :
  forall BN L rid req h p c msg,
    missing_required req = false ->
    BN (pollId req) = Ok p -> BN (candidateId req) = Ok c ->
    (forall d, getPollDetails L h p = Ok d -> c < candidateCount d) ->
    hasVoted L (h ++ [EGetPollDetails p]) p (voter req) = Throw msg ->
    submit_vote BN L rid req h =
    (voter_status_failed, h ++ [EGetPollDetails p; EHasVoted p (voter req)]).
Proof.
  intros BN L rid req h p c msg Hm Hp Hc Hd Hv.
  unfold submit_vote. step_unfold. rewrite Hm, Hp, Hc. cbn [fst snd].
  destruct (getPollDetails L h p) as [d|] eqn:Hg.
  - specialize (Hd d eq_refl).
    destruct (candidateCount d <=? c) eqn:Hle; [apply Z.leb_le in Hle; lia|].
    rewrite Hv, <- app_assoc. reflexivity.
  - rewrite Hv, <- app_assoc. reflexivity.
Qed.

(** X7 (instance): the voter is not an address, so the call throws. *)
Lemma unreadable_vote_status_stops_witness :
  submit_vote numeric_BigNumber_from
    (mock_ledger open_poll false (10 ^ 18) (Ok sample_tx)) sample_id
    (mkRequest (JNumber 1) (JNumber 0) (JBool true) sample_signature
               JUndefined) [] =
  (voter_status_failed, [EGetPollDetails 1; EHasVoted 1 (JBool true)]).
Proof.
  apply (unreadable_vote_status_stops numeric_BigNumber_from
           (mock_ledger open_poll false (10 ^ 18) (Ok sample_tx)) sample_id
           (mkRequest (JNumber 1) (JNumber 0) (JBool true) sample_signature
                      JUndefined) [] 1 0 "invalid address").
  all: try reflexivity.
  intros d Hd. injection Hd as <-. reflexivity.
Defined.

(** The funds check stops a request whose earlier checks pass. *)
Lemma check_eligibility_low_balance :
  forall BN L req h p c,
    missing_required req = false ->
    BN (pollId req) = Ok p -> BN (candidateId req) = Ok c ->
    (forall d, getPollDetails L h p = Ok d -> c < candidateCount d) ->
    hasVoted L (h ++ [EGetPollDetails p]) p (voter req) = Ok false ->
    (forall b,
       getBalance L (h ++ [EGetPollDetails p; EHasVoted p (voter req)])
                  (wallet_address L) = Ok b ->
       b < 40000000000000000) ->
    check_eligibility BN L req h =
    (inl relayer_underfunded, h ++ eligibility_reads L p (voter req)).
Proof.
  intros BN L req h p c Hm Hp Hc Hd Hv Hb.
  step_unfold. rewrite Hm, Hp, Hc. cbn [fst snd].
  assert (Hlow :
    (match getBalance L (h ++ [EGetPollDetails p; EHasVoted p (voter req)])
                      (wallet_address L) with
     | Ok b => b
     | Throw _ => 0
     end <? estimatedGasCost) = true).
  { apply Z.ltb_lt.
    change estimatedGasCost with 40000000000000000.
    destruct (getBalance L _ (wallet_address L)) as [b|];
      [exact (Hb b eq_refl) | lia]. }
  destruct (getPollDetails L h p) as [d|] eqn:Hg;
    [specialize (Hd d eq_refl);
     destruct (candidateCount d <=? c) eqn:Hle;
       [apply Z.leb_le in Hle; lia|]|];
    rewrite Hv; repeat rewrite <- app_assoc; cbn [app];
    (destruct (getBalance L _ (wallet_address L)) as [b|];
       cbn [fst snd] in *; rewrite Hlow; reflexivity).
Qed.

(** X8. The funds check: a relayer balance below 0.04 units of currency
    (40000000000000000 wei, 80 gwei times 500000 gas), or a balance that
    cannot be read, stops the request with the 400 "needs more funds" reply
    after the three reads; nothing is sent. *)
Theorem low_balance_stops :
  forall BN L rid req h p c,
    missing_required req = false ->
    BN (pollId req) = Ok p -> BN (candidateId req) = Ok c ->
    (forall d, getPollDetails L h p = Ok d -> c < candidateCount d) ->
    hasVoted L (h ++ [EGetPollDetails p]) p (voter req) = Ok false ->
    (forall b,
       getBalance L (h ++ [EGetPollDetails p; EHasVoted p (voter req)])
                  (wallet_address L) = Ok b ->
       b < 40000000000000000) ->
    submit_vote BN L rid req h =
    (relayer_underfunded, h ++ eligibility_reads L p (voter req)).
Proof.
  intros BN L rid req h p c Hm Hp Hc Hd Hv Hb.
  pose proof (check_eligibility_low_balance BN L req h p c
                Hm Hp Hc Hd Hv Hb) as He.
  destruct (submit_vote_stopped BN L rid req h relayer_underfunded)
    as [Heq _]; [rewrite He; reflexivity|].
  rewrite Heq, He. reflexivity.
Qed.

(** X8 (instance): a balance one wei short of the estimate. *)
Lemma low_balance_stops_witness :
  submit_vote numeric_BigNumber_from
    (mock_ledger open_poll false 39999999999999999 (Ok sample_tx))
    sample_id vote_request [] =
  (relayer_underfunded,
   [EGetPollDetails 1; EHasVoted 1 (JString voter_address);
    EGetBalance relayer_address]).
Proof.
  apply (low_balance_stops numeric_BigNumber_from
           (mock_ledger open_poll false 39999999999999999 (Ok sample_tx))
           sample_id vote_request [] 1 0).
  all: try reflexivity.
  - intros d Hd. injection Hd as <-. reflexivity.
  - intros b Hb. injection Hb as <-. reflexivity.
Defined.

(** ** The vote that is relayed *)

Lemma relays_run_step req p c (h : History) (pre : list Event) (h' : History) :
  Forall (relays req p c) pre ->
  (exists tr, h' = (h ++ pre) ++ tr /\ Forall (relays req p c) tr) ->
  exists tr, h' = h ++ tr /\ Forall (relays req p c) tr.
Proof.
  intros Hpre (tr & -> & Htr).
  exists (pre ++ tr). split; [rewrite app_assoc; reflexivity|].
  apply Forall_app. split; assumption.
Qed.

Lemma replace_stuck_relays L req p c tx h :
  exists tr,
    replace_stuck L req p c tx h = h ++ tr /\ Forall (relays req p c) tr.
Proof.
  unfold replace_stuck, metaVote_event.
  destruct (getTransaction L h (hash tx)) as [[otx|]|].
  - destruct (metaVote_call L req p c _ _);
      (eexists; rewrite <- app_assoc; split; [reflexivity|];
       repeat constructor).
  - eexists. split; [reflexivity | repeat constructor].
  - eexists. split; [reflexivity | repeat constructor].
Qed.

Lemma checkTransactionConfirmation_relays L req p c tx n h :
  exists tr,
    checkTransactionConfirmation L req p c tx n h = h ++ tr /\
    Forall (relays req p c) tr.
Proof.
  funelim (checkTransactionConfirmation L req p c tx n h).
  - unfold inspect_receipt. destruct (receipt_status receipt =? 1);
      (eexists; rewrite <- app_assoc; split; [reflexivity|];
       repeat constructor).
  - apply relays_run_step
      with (pre := [EGetTransactionReceipt (hash tx);
                    ESetTimeout (5000 * Z.of_nat (S n))]);
      [repeat constructor | assumption].
  - apply relays_run_step with (pre := [EGetTransactionReceipt (hash tx)]);
      [repeat constructor | apply replace_stuck_relays].
  - apply relays_run_step
      with (pre := [EGetTransactionReceipt (hash tx);
                    ESetTimeout (5000 * Z.of_nat (S n))]);
      [repeat constructor | assumption].
  - eexists. split; [reflexivity | repeat constructor].
Qed.

Lemma after_response_relays L req p c tx h :
  exists tr,
    after_response L req p c tx h = h ++ tr /\ Forall (relays req p c) tr.
Proof.
  unfold after_response, start_monitoring.
  destruct (tx_wait L _ _).
  - apply relays_run_step
      with (pre := [ESetTimeout 10000; ETxWait (hash tx); ESetTimeout 5000]);
      [repeat constructor|].
    rewrite <- app_assoc. apply checkTransactionConfirmation_relays.
  - apply relays_run_step
      with (pre := [ESetTimeout 10000; ETxWait (hash tx); ESetTimeout 5000;
                    ESetTimeout 5000; ETxWait (hash tx)]);
      [repeat constructor|].
    rewrite <- app_assoc. apply checkTransactionConfirmation_relays.
  - apply relays_run_step
      with (pre := [ESetTimeout 10000; ETxWait (hash tx); ESetTimeout 5000;
                    ESetTimeout 5000; ETxWait (hash tx)]);
      [repeat constructor|].
    rewrite <- app_assoc. apply checkTransactionConfirmation_relays.
Qed.

(** X9. The relayer never alters a vote: every transaction the handler
    sends, the original and the replacement alike, carries the poll and
    candidate identifiers converted from the request, the request's voter
    and signature, and the request's Merkle proof (the empty array when the
    request has none). *)
Theorem votes_are_relayed_unchanged :
  forall BN L rid req h,
    exists tr,
      snd (submit_vote BN L rid req h) = h ++ tr /\
      forall p c v m s o,
        In (EMetaVote p c v m s o) tr ->
        BN (pollId req) = Ok p /\ BN (candidateId req) = Ok c /\
        v = voter req /\ s = signature req /\
        m = (if truthy (merkleProof req) then merkleProof req
             else JArray []).
Proof.
  intros BN L rid req h.
  destruct (check_eligibility_reads BN L req h) as (tr1 & Htr1 & Hreads).
  pose proof (check_eligibility_passed BN L req h) as Hpassed.
  unfold submit_vote, bind.
  destruct (check_eligibility BN L req h) as [[r|ids] h1];
    cbn [fst snd] in *; subst h1.
  - exists tr1. split; [reflexivity|].
    intros p c v m s o Hin. exfalso.
    exact (read_is_no_metaVote tr1 p c v m s o Hreads Hin).
  - destruct (Hpassed ids _ eq_refl) as (_ & Hp & Hc & _).
    unfold send_vote, bind, call, pure, reply.
    destruct (metaVote_call L req (fst ids) (snd ids) original_options
                            (h ++ tr1)) as [tx|msg]; cbn [fst snd].
    + destruct (after_response_relays L req (fst ids) (snd ids) tx
                  ((h ++ tr1) ++
                   [metaVote_event req (fst ids) (snd ids) original_options]))
        as (tr2 & -> & Hrel).
      exists (tr1 ++ metaVote_event req (fst ids) (snd ids) original_options
                  :: tr2).
      split; [repeat rewrite <- app_assoc; reflexivity|].
      intros p c v m s o Hin.
      apply in_app_or in Hin. destruct Hin as [Hin|[Hin|Hin]].
      * exfalso. exact (read_is_no_metaVote tr1 p c v m s o Hreads Hin).
      * unfold metaVote_event in Hin. injection Hin as <- <- <- <- <- _.
        repeat split; assumption.
      * rewrite Forall_forall in Hrel. specialize (Hrel _ Hin).
        destruct Hrel as (-> & -> & -> & -> & ->).
        repeat split; assumption.
    + exists (tr1 ++ [metaVote_event req (fst ids) (snd ids)
                                     original_options]).
      split; [rewrite app_assoc; reflexivity|].
      intros p c v m s o Hin.
      apply in_app_or in Hin. destruct Hin as [Hin|[Hin|[]]].
      * exfalso. exact (read_is_no_metaVote tr1 p c v m s o Hreads Hin).
      * unfold metaVote_event in Hin. injection Hin as <- <- <- <- <- _.
        repeat split; assumption.
Qed.

(** ** The monitor on any ledger *)

Lemma waiting_app (h1 h2 : History) :
  waiting (h1 ++ h2) = waiting h1 + waiting h2.
Proof.
  induction h1 as [|e h1 IH]; [reflexivity|].
  cbn [app waiting fold_right]. fold (waiting (h1 ++ h2)). rewrite IH.
  fold (waiting h1). destruct e; lia.
Qed.

Lemma pending_polls_next (txh : string) (n : nat) :
  (S n < maxConfirmationAttempts)%nat ->
  pending_polls txh (maxConfirmationAttempts - n) n =
  EGetTransactionReceipt txh :: ESetTimeout (5000 * Z.of_nat (S n))
  :: pending_polls txh (maxConfirmationAttempts - S n) (S n).
Proof.
  unfold maxConfirmationAttempts. intros Hlt.
  do 4 (destruct n as [|n]; [reflexivity|]). lia.
Qed.

Lemma pending_polls_last (txh : string) (n : nat) :
  (n < maxConfirmationAttempts)%nat ->
  ~ (S n < maxConfirmationAttempts)%nat ->
  pending_polls txh (maxConfirmationAttempts - n) n =
  [EGetTransactionReceipt txh].
Proof.
  unfold maxConfirmationAttempts. intros Hlt Hge.
  do 4 (destruct n as [|n]; [lia|]).
  destruct n; [reflexivity | lia].
Qed.

Lemma inspect_receipt_sends_nothing req p tx receipt h :
  submissions (inspect_receipt req p tx receipt h) = submissions h.
Proof.
  unfold inspect_receipt.
  destruct (receipt_status receipt =? 1); rewrite submissions_app; cbn; lia.
Qed.

(** A replacement comes only at the end of the ladder. *)
Lemma replacement_after_polls L req p c tx n h :
  (n < maxConfirmationAttempts)%nat ->
  submissions (checkTransactionConfirmation L req p c tx n h) <>
  submissions h ->
  exists originalTx tail,
    getTransaction L
      (h ++ pending_polls (hash tx) (maxConfirmationAttempts - n) n)
      (hash tx) = Ok (Some originalTx) /\
    checkTransactionConfirmation L req p c tx n h =
    h ++ pending_polls (hash tx) (maxConfirmationAttempts - n) n
      ++ [EGetTransaction (hash tx);
          metaVote_event req p c
            (replacement_options (tx_nonce originalTx))] ++ tail /\
    submissions tail = 0%nat.
Proof.
  funelim (checkTransactionConfirmation L req p c tx n h);
    intros Hn Hsent.
  - exfalso. apply Hsent.
    rewrite inspect_receipt_sends_nothing, submissions_app. cbn. lia.
  - destruct H as (otx & tail & Hget & Hrun & Htail); [exact Hlt| |].
    + rewrite submissions_app. cbn.
      rewrite Nat.add_0_r. exact Hsent.
    + exists otx, tail.
      rewrite (pending_polls_next (hash tx) n Hlt).
      rewrite <- app_assoc in Hget. rewrite <- app_assoc in Hrun.
      split; [exact Hget|]. split; [exact Hrun | exact Htail].
  - rewrite (pending_polls_last (hash tx) n Hn n1).
    unfold replace_stuck in *.
    destruct (getTransaction L _ (hash tx)) as [[otx|]|] eqn:Hget.
    + exists otx.
      destruct (metaVote_call L req _ _ _ _) as [rtx|].
      * exists [ESetTimeout 10000; EGetTransactionReceipt (hash rtx)].
        repeat rewrite <- app_assoc.
        split; [reflexivity|]. split; reflexivity.
      * exists []. repeat rewrite <- app_assoc.
        split; [reflexivity|]. split; reflexivity.
    + exfalso. apply Hsent. rewrite !submissions_app. cbn. lia.
    + exfalso. apply Hsent. rewrite !submissions_app. cbn. lia.
  - destruct H as (otx & tail & Hget & Hrun & Htail); [exact Hlt| |].
    + rewrite submissions_app. cbn.
      rewrite Nat.add_0_r. exact Hsent.
    + exists otx, tail.
      rewrite (pending_polls_next (hash tx) n Hlt).
      rewrite <- app_assoc in Hget. rewrite <- app_assoc in Hrun.
      split; [exact Hget|]. split; [exact Hrun | exact Htail].
  - exfalso. apply Hsent. rewrite submissions_app. cbn. lia.
Qed.

(** X10. The monitor never replaces early: on any ledger, if the monitor
    sends a transaction at all, it has before that looked for the receipt
    five times, after 5, 5, 10, 15 and 20 seconds, and read the original
    transaction; the transaction it sends is the replacement with the nonce
    of the transaction that [getTransaction] returned at that point, and
    nothing is sent after it. *)
Theorem replacement_only_after_five_polls :
  forall L req p c tx h,
    submissions (start_monitoring L req p c tx h) <> submissions h ->
    exists originalTx tail,
      getTransaction L
        (h ++ [ESetTimeout 5000; EGetTransactionReceipt (hash tx);
               ESetTimeout 5000; EGetTransactionReceipt (hash tx);
               ESetTimeout 10000; EGetTransactionReceipt (hash tx);
               ESetTimeout 15000; EGetTransactionReceipt (hash tx);
               ESetTimeout 20000; EGetTransactionReceipt (hash tx)])
        (hash tx) = Ok (Some originalTx) /\
      start_monitoring L req p c tx h =
      h ++ [ESetTimeout 5000; EGetTransactionReceipt (hash tx);
            ESetTimeout 5000; EGetTransactionReceipt (hash tx);
            ESetTimeout 10000; EGetTransactionReceipt (hash tx);
            ESetTimeout 15000; EGetTransactionReceipt (hash tx);
            ESetTimeout 20000; EGetTransactionReceipt (hash tx);
            EGetTransaction (hash tx);
            metaVote_event req p c
              (replacement_options (tx_nonce originalTx))] ++ tail /\
      submissions tail = 0%nat.
Proof.
  intros L req p c tx h Hsent. unfold start_monitoring in *.
  destruct (replacement_after_polls L req p c tx 0
              (h ++ [ESetTimeout 5000]))
    as (otx & tail & Hget & Hrun & Htail).
  - unfold maxConfirmationAttempts. lia.
  - rewrite submissions_app. cbn. rewrite Nat.add_0_r. exact Hsent.
  - exists otx, tail.
    rewrite <- app_assoc in Hget. rewrite <- app_assoc in Hrun.
    split; [exact Hget|]. split; [exact Hrun | exact Htail].
Qed.

(** X10 (instance): the ledger on which nothing is mined; the node reports
    nonce 7 for the original and the replacement carries it. *)
Lemma replacement_only_after_five_polls_witness :
  exists originalTx tail,
    getTransaction silent_ledger
      ([] ++ [ESetTimeout 5000; EGetTransactionReceipt (hash sample_tx);
              ESetTimeout 5000; EGetTransactionReceipt (hash sample_tx);
              ESetTimeout 10000; EGetTransactionReceipt (hash sample_tx);
              ESetTimeout 15000; EGetTransactionReceipt (hash sample_tx);
              ESetTimeout 20000; EGetTransactionReceipt (hash sample_tx)])
      (hash sample_tx) = Ok (Some originalTx) /\
    start_monitoring silent_ledger vote_request 1 0 sample_tx [] =
    [] ++ [ESetTimeout 5000; EGetTransactionReceipt (hash sample_tx);
           ESetTimeout 5000; EGetTransactionReceipt (hash sample_tx);
           ESetTimeout 10000; EGetTransactionReceipt (hash sample_tx);
           ESetTimeout 15000; EGetTransactionReceipt (hash sample_tx);
           ESetTimeout 20000; EGetTransactionReceipt (hash sample_tx);
           EGetTransaction (hash sample_tx);
           metaVote_event vote_request 1 0
             (replacement_options (tx_nonce originalTx))] ++ tail /\
    submissions tail = 0%nat.
Proof.
  apply (replacement_only_after_five_polls silent_ledger vote_request 1 0
           sample_tx []).
  vm_compute. discriminate.
Defined.

Lemma failing_polls L req p c tx n h :
  (n < maxConfirmationAttempts)%nat ->
  (forall h', exists msg,
      getTransactionReceipt L h' (hash tx) = Throw msg) ->
  checkTransactionConfirmation L req p c tx n h =
  h ++ pending_polls (hash tx) (maxConfirmationAttempts - n) n.
Proof.
  funelim (checkTransactionConfirmation L req p c tx n h);
    intros Hn Hfail;
    try (destruct (Hfail h) as [msg Hmsg]; congruence).
  - rewrite (H Hlt Hfail), (pending_polls_next (hash tx) n Hlt).
    rewrite <- app_assoc. reflexivity.
  - rewrite (pending_polls_last (hash tx) n Hn n1). reflexivity.
Qed.

(** X11. When every receipt read fails (the node is unreachable), the
    monitor tries five times, after 5, 5, 10, 15 and 20 seconds, and then
    gives up: it neither reads the original transaction nor sends a
    replacement. *)
Theorem failing_receipt_reads_give_up :
  forall L req p c tx h,
    (forall h', exists msg,
        getTransactionReceipt L h' (hash tx) = Throw msg) ->
    start_monitoring L req p c tx h =
    h ++ [ESetTimeout 5000; EGetTransactionReceipt (hash tx);
          ESetTimeout 5000; EGetTransactionReceipt (hash tx);
          ESetTimeout 10000; EGetTransactionReceipt (hash tx);
          ESetTimeout 15000; EGetTransactionReceipt (hash tx);
          ESetTimeout 20000; EGetTransactionReceipt (hash tx)] /\
    submissions (start_monitoring L req p c tx h) = submissions h.
Proof.
  intros L req p c tx h Hfail. unfold start_monitoring.
  rewrite (failing_polls L req p c tx 0 (h ++ [ESetTimeout 5000]));
    [|unfold maxConfirmationAttempts; lia | exact Hfail].
  rewrite <- app_assoc. split; [reflexivity|].
  rewrite submissions_app. cbn. lia.
Qed.

(** X11 (instance): a node that answers every receipt read with a timeout. *)
Lemma failing_receipt_reads_give_up_witness :
  submissions
    (start_monitoring
       (mkLedger relayer_address (fun _ _ => Ok open_poll)
          (fun _ _ _ => Ok false) (fun _ _ => Ok (10 ^ 18))
          (fun _ _ _ _ _ _ _ => Ok sample_tx) (fun _ _ => WaitTimeout)
          (fun _ _ => Throw "timeout")
          (fun _ txh => Ok (Some (mkTx txh 7))))
       vote_request 1 0 sample_tx []) = submissions [].
Proof.
  apply (failing_receipt_reads_give_up
           (mkLedger relayer_address (fun _ _ => Ok open_poll)
              (fun _ _ _ => Ok false) (fun _ _ => Ok (10 ^ 18))
              (fun _ _ _ _ _ _ _ => Ok sample_tx) (fun _ _ => WaitTimeout)
              (fun _ _ => Throw "timeout")
              (fun _ txh => Ok (Some (mkTx txh 7))))
           vote_request 1 0 sample_tx []).
  intros h'. exists "timeout". reflexivity.
Defined.

Lemma remaining_wait_step (n : nat) :
  (S n < maxConfirmationAttempts)%nat ->
  5000 * Z.of_nat (S n) + remaining_wait (S n) <= remaining_wait n.
Proof.
  unfold maxConfirmationAttempts. intros Hlt.
  do 4 (destruct n as [|n]; [cbn; lia|]). lia.
Qed.

Lemma remaining_wait_least (n : nat) : 10000 <= remaining_wait n.
Proof.
  do 4 (destruct n as [|n]; [cbn; lia|]). cbn. lia.
Qed.

Lemma replace_stuck_waits L req p c tx h :
  waiting (replace_stuck L req p c tx h) <= waiting h + 10000.
Proof.
  unfold replace_stuck, metaVote_event.
  destruct (getTransaction L h (hash tx)) as [[otx|]|];
    [destruct (metaVote_call L req p c _ _)| |];
    rewrite !waiting_app; cbn; lia.
Qed.

Lemma checkTransactionConfirmation_waits L req p c tx n h :
  waiting (checkTransactionConfirmation L req p c tx n h) <=
  waiting h + remaining_wait n.
Proof.
  funelim (checkTransactionConfirmation L req p c tx n h).
  - pose proof (remaining_wait_least n).
    unfold inspect_receipt. destruct (receipt_status receipt =? 1);
      rewrite !waiting_app; cbn; lia.
  - pose proof (remaining_wait_step n Hlt).
    rewrite waiting_app in H. cbn [waiting fold_right] in H. lia.
  - pose proof (remaining_wait_least n).
    pose proof (replace_stuck_waits L req pollIdBN candidateIdBN tx
                  (h ++ [EGetTransactionReceipt (hash tx)])) as Hw.
    rewrite waiting_app in Hw. cbn [waiting fold_right] in Hw. lia.
  - pose proof (remaining_wait_step n Hlt).
    rewrite waiting_app in H. cbn [waiting fold_right] in H. lia.
  - pose proof (remaining_wait_least n).
    rewrite waiting_app. cbn. lia.
Qed.

(** X12. The monitor is bounded on every ledger, whatever it answers and
    however often it fails: the delays it schedules add up to at most 65
    seconds, and it sends at most one transaction. *)
Theorem monitor_is_bounded :
  forall L req p c tx h,
    waiting (start_monitoring L req p c tx h) <= waiting h + 65000 /\
    (submissions (start_monitoring L req p c tx h) <=
     submissions h + 1)%nat.
Proof.
  intros L req p c tx h. split.
  - unfold start_monitoring.
    pose proof (checkTransactionConfirmation_waits L req p c tx 0
                  (h ++ [ESetTimeout 5000])) as Hw.
    rewrite waiting_app in Hw. cbn in Hw. lia.
  - destruct (start_monitoring_run L req p c tx h) as (tr & -> & _ & Hle).
    rewrite submissions_app. lia.
Qed.

(** The reply to a failed submission. *)
Lemma submit_vote_submission_error BN L rid req h ids h1 msg :
  check_eligibility BN L req h = (inr ids, h1) ->
  metaVote_call L req (fst ids) (snd ids) original_options h1 = Throw msg ->
  submit_vote BN L rid req h =
  (submission_error msg,
   h1 ++ [metaVote_event req (fst ids) (snd ids) original_options]).
Proof.
  intros He Hm. unfold submit_vote, bind. rewrite He.
  unfold send_vote, bind, call, pure, reply. rewrite Hm. reflexivity.
Qed.

(** A reply of the handler is the success reply of a transaction or a
    failure with status 400 or 500 and no transaction hash. *)
Lemma submit_vote_reply_cases BN L rid req h :
  (exists tx, fst (submit_vote BN L rid req h) = accepted tx req rid) \/
  (success (fst (submit_vote BN L rid req h)) = false /\
   (status (fst (submit_vote BN L rid req h)) = 400 \/
    status (fst (submit_vote BN L rid req h)) = 500) /\
   submitted (fst (submit_vote BN L rid req h)) = None).
Proof.
  pose proof (check_eligibility_reply_fails BN L req h) as Hfail.
  pose proof (check_eligibility_reply_shape BN L req h) as Hshape.
  unfold submit_vote, bind.
  destruct (check_eligibility BN L req h) as [[r|ids] h1];
    cbn [fst snd] in *.
  - right. destruct (Hshape r eq_refl). auto.
  - unfold send_vote, bind, call, pure, reply.
    destruct (metaVote_call L req (fst ids) (snd ids) original_options h1)
      as [tx|msg]; cbn [fst snd].
    + left. exists tx. reflexivity.
    + right. destruct (submission_error_shape msg).
      split; [apply submission_error_fails | auto].
Qed.

(** ** The client *)

Lemma posts_app (h1 h2 : list ClientEvent) :
  posts (h1 ++ h2) = (posts h1 + posts h2)%nat.
Proof. unfold posts. rewrite filter_app, length_app. reflexivity. Qed.

Lemma pauses_app (h1 h2 : list ClientEvent) :
  pauses (h1 ++ h2) = pauses h1 + pauses h2.
Proof.
  induction h1 as [|e h1 IH]; [reflexivity|].
  cbn [app pauses fold_right]. fold (pauses (h1 ++ h2)). rewrite IH.
  fold (pauses h1). destruct e; lia.
Qed.

Lemma makeRequest_bounded N body pollId candidateId retryCount h :
  (posts (snd (makeRequest N body pollId candidateId retryCount h)) <=
   posts h + S (maxRetries - retryCount))%nat /\
  pauses (snd (makeRequest N body pollId candidateId retryCount h)) <=
  pauses h + match retryCount with
             | 0%nat => 6000
             | 1%nat => 4000
             | _ => 0
             end.
Proof.
  funelim (makeRequest N body pollId candidateId retryCount h);
    cbn [snd];
    try (rewrite posts_app, pauses_app; cbn; split; [lia|];
         destruct retryCount as [|[|k]];
         unfold maxRetries in *; lia).
  destruct H as (Hp & Hs).
  rewrite posts_app in Hp. rewrite pauses_app in Hs.
  unfold maxRetries in *. cbn in Hp, Hs.
  destruct retryCount as [|[|k]]; [| |lia]; cbn in Hp, Hs |- *;
    split; lia.
Qed.

(** X13. The client is bounded on every network: it posts the vote at most
    three times and pauses at most 6 seconds between attempts; when the
    status pre-check fails it posts nothing and reports a failure. *)
Theorem client_retries_are_bounded :
  forall N pollId candidateId voter signature merkleProof h,
    (posts (snd (submitMetaTransaction N pollId candidateId voter signature
                   merkleProof h)) <= posts h + 3)%nat /\
    pauses (snd (submitMetaTransaction N pollId candidateId voter signature
                   merkleProof h)) <= pauses h + 6000 /\
    (checkRelayerServiceStatus N h = false ->
     posts (snd (submitMetaTransaction N pollId candidateId voter signature
                   merkleProof h)) = posts h /\
     c_success (fst (submitMetaTransaction N pollId candidateId voter
                       signature merkleProof h)) = false).
Proof.
  intros N pid cid v s m h. unfold submitMetaTransaction.
  destruct (checkRelayerServiceStatus N h).
  - pose proof (makeRequest_bounded N (payload pid cid v s m) pid cid 0
                  (h ++ [CGetStatus])) as (Hp & Hs).
    rewrite posts_app in Hp. rewrite pauses_app in Hs.
    unfold maxRetries in Hp. cbn in Hp, Hs.
    destruct (makeRequest N (payload pid cid v s m) pid cid 0
                (h ++ [CGetStatus])) as [[result|[name msg]] h2];
      cbn [fst snd] in *; repeat split; try lia; discriminate.
  - cbn [fst snd]. rewrite posts_app, pauses_app. cbn.
    repeat split; lia.
Qed.

(** An answer of the relayer, whatever its status, is final for the
    client: one post, no retry, and the result is read off the answer. *)
Lemma answered_once N pollId candidateId voter signature merkleProof h r :
  checkRelayerServiceStatus N h = true ->
  fetch_submit N (h ++ [CGetStatus])
    (payload pollId candidateId voter signature merkleProof) = Answered r ->
  submitMetaTransaction N pollId candidateId voter signature merkleProof h =
  (interpret_reply pollId candidateId r,
   h ++ [CGetStatus;
         CPostVote (payload pollId candidateId voter signature merkleProof)]).
Proof.
  intros Hup Hr. unfold submitMetaTransaction. rewrite Hup.
  simp makeRequest. rewrite Hr. simp makeRequest.
  rewrite <- app_assoc. reflexivity.
Qed.

Lemma interpret_failure pollId candidateId r :
  success r = false -> (status r = 400 \/ status r = 500) ->
  c_success (interpret_reply pollId candidateId r) = false.
Proof.
  intros Hs Hst. unfold interpret_reply.
  assert (Hok : http_ok (status r) = false)
    by (destruct Hst as [-> | ->]; reflexivity).
  rewrite Hok. cbn [negb].
  repeat match goal with
         | |- context [if ?b then _ else _] => destruct b
         end; reflexivity.
Qed.

(** X14. End to end, the client reports success exactly when the relayer's
    handler does, that is when the ledger took the transaction; it then
    shows the transaction's hash. The vote is posted once. *)
Theorem client_success_iff_accepted :
  forall BN L rid hs up pollId candidateId voter signature merkleProof h,
    http_ok (st_status up) = true -> st_success up = true ->
    c_success
      (fst (submitMetaTransaction
              (relayer_network up
                 (fun body => fst (submit_vote BN L rid body hs)))
              pollId candidateId voter signature merkleProof h)) =
    success (fst (submit_vote BN L rid
                    (payload pollId candidateId voter signature merkleProof)
                    hs)) /\
    (forall tx,
       fst (submit_vote BN L rid
              (payload pollId candidateId voter signature merkleProof) hs) =
       accepted tx (payload pollId candidateId voter signature merkleProof)
                rid ->
       hash tx <> "" ->
       c_txHash
         (fst (submitMetaTransaction
                 (relayer_network up
                    (fun body => fst (submit_vote BN L rid body hs)))
                 pollId candidateId voter signature merkleProof h)) =
       Some (hash tx)) /\
    posts
      (snd (submitMetaTransaction
              (relayer_network up
                 (fun body => fst (submit_vote BN L rid body hs)))
              pollId candidateId voter signature merkleProof h)) =
    (posts h + 1)%nat.
Proof.
  intros BN L rid hs up pid cid v s m h Hok Hsucc.
  rewrite (answered_once _ pid cid v s m h
             (fst (submit_vote BN L rid (payload pid cid v s m) hs)));
    [| unfold checkRelayerServiceStatus, relayer_network; cbn;
       rewrite Hok, Hsucc; reflexivity
     | reflexivity].
  cbn [fst snd]. split; [|split].
  - destruct (submit_vote_reply_cases BN L rid (payload pid cid v s m) hs)
      as [[tx ->] | (Hf & Hst & _)].
    + unfold interpret_reply, accepted. cbn.
      destruct (String.eqb (hash tx) ""); reflexivity.
    + rewrite Hf. apply interpret_failure; assumption.
  - intros tx -> Hne. unfold interpret_reply, accepted. cbn.
    destruct (String.eqb (hash tx) "") eqn:He;
      [apply String.eqb_eq in He; contradiction | reflexivity].
  - rewrite posts_app. cbn. lia.
Qed.

(** X14 (instance): a valid vote on poll 0, posted by the client. *)
Lemma client_success_iff_accepted_witness :
  c_success
    (fst (submitMetaTransaction
            (relayer_network bare_status
               (fun body =>
                  fst (submit_vote decimal_BigNumber_from
                         (mock_ledger open_poll false (10 ^ 18)
                                      (Ok sample_tx))
                         sample_id body [])))
            0 0 voter_address "0x1b2c3d" [] [])) =
  success
    (fst (submit_vote decimal_BigNumber_from
            (mock_ledger open_poll false (10 ^ 18) (Ok sample_tx))
            sample_id (payload 0 0 voter_address "0x1b2c3d" []) [])).
Proof.
  apply (client_success_iff_accepted decimal_BigNumber_from
           (mock_ledger open_poll false (10 ^ 18) (Ok sample_tx))
           sample_id [] bare_status 0 0 voter_address "0x1b2c3d" [] []).
  - reflexivity.
  - reflexivity.
Defined.

Lemma Number_toString_not_empty (n : Z) : Number_toString n <> "".
Proof.
  unfold Number_toString.
  destruct (Z.to_int n) as [d|d]; cbn; [|discriminate].
  destruct d; cbn; discriminate.
Qed.

Lemma truthy_string (s : string) : s <> "" -> truthy (JString s) = true.
Proof.
  intros Hne. cbn. destruct (String.eqb s "") eqn:He; [|reflexivity].
  apply String.eqb_eq in He. contradiction.
Qed.

(** X15. The body the client posts always passes the handler's presence test
    when the voter and the signature are not empty, poll 0 included: the
    identifiers travel as strings, and the string "0" is truthy where the
    number 0 is not. Once they are converted, the handler goes on to read
    the poll from the ledger. *)
Theorem client_payload_is_complete :
  forall pollId candidateId voter signature merkleProof,
    voter <> "" -> signature <> "" ->
    missing_required
      (payload pollId candidateId voter signature merkleProof) = false /\
    forall BN L rid h,
      BN (JString (Number_toString pollId)) = Ok pollId ->
      BN (JString (Number_toString candidateId)) = Ok candidateId ->
      exists tr,
        snd (submit_vote BN L rid
               (payload pollId candidateId voter signature merkleProof) h) =
        h ++ EGetPollDetails pollId :: tr.
Proof.
  intros pid cid v s m Hv Hs.
  assert (Hm : missing_required (payload pid cid v s m) = false).
  { unfold missing_required, payload.
    cbn [pollId candidateId voter signature is_undefined].
    rewrite (truthy_string _ (Number_toString_not_empty pid)),
      (truthy_string v Hv), (truthy_string s Hs). reflexivity. }
  split; [exact Hm|].
  intros BN L rid h Hp Hc.
  exact (submit_vote_reaches_ledger BN L rid _ h pid cid Hm Hp Hc).
Qed.

(** X15 (instance): poll 0, candidate 0. *)
Lemma client_payload_is_complete_witness :
  missing_required (payload 0 0 voter_address "0x1b2c3d" []) = false /\
  exists tr,
    snd (submit_vote decimal_BigNumber_from
           (mock_ledger open_poll false (10 ^ 18) (Ok sample_tx)) sample_id
           (payload 0 0 voter_address "0x1b2c3d" []) []) =
    [] ++ EGetPollDetails 0 :: tr.
Proof.
  destruct (client_payload_is_complete 0 0 voter_address "0x1b2c3d" [])
    as [Hm Hreach].
  - discriminate.
  - discriminate.
  - split; [exact Hm|].
    apply (Hreach decimal_BigNumber_from
             (mock_ledger open_poll false (10 ^ 18) (Ok sample_tx))
             sample_id []); reflexivity.
Defined.

(** X16. End to end, a relayer that is short of funds is reported to the
    voter as a poll creator short of funds: when the handler stops a posted
    vote at its funds check, the client shows "Poll creator doesn't have
    enough funds to cover gas fees for voting.", and posts the vote once. *)
Theorem low_relayer_balance_blames_creator :
  forall BN L rid hs up pollId candidateId voter signature merkleProof h p c,
    http_ok (st_status up) = true -> st_success up = true ->
    missing_required
      (payload pollId candidateId voter signature merkleProof) = false ->
    BN (JString (Number_toString pollId)) = Ok p ->
    BN (JString (Number_toString candidateId)) = Ok c ->
    (forall d, getPollDetails L hs p = Ok d -> c < candidateCount d) ->
    hasVoted L (hs ++ [EGetPollDetails p]) p (JString voter) = Ok false ->
    (forall b,
       getBalance L (hs ++ [EGetPollDetails p; EHasVoted p (JString voter)])
                  (wallet_address L) = Ok b ->
       b < 40000000000000000) ->
    submitMetaTransaction
      (relayer_network up (fun body => fst (submit_vote BN L rid body hs)))
      pollId candidateId voter signature merkleProof h =
    (refused
       "Poll creator doesn't have enough funds to cover gas fees for voting.",
     h ++ [CGetStatus;
           CPostVote
             (payload pollId candidateId voter signature merkleProof)]).
Proof.
  intros BN L rid hs up pid cid v s m h p c Hok Hsucc Hm Hp Hc Hd Hv Hb.
  rewrite (answered_once _ pid cid v s m h
             (fst (submit_vote BN L rid (payload pid cid v s m) hs)));
    [| unfold checkRelayerServiceStatus, relayer_network; cbn;
       rewrite Hok, Hsucc; reflexivity
     | reflexivity].
  pose proof (check_eligibility_low_balance BN L (payload pid cid v s m) hs
                p c Hm Hp Hc Hd Hv Hb) as He.
  destruct (submit_vote_stopped BN L rid (payload pid cid v s m) hs
              relayer_underfunded) as [Heq _]; [rewrite He; reflexivity|].
  rewrite Heq. reflexivity.
Qed.

(** X16 (instance): a relayer without funds and a valid vote on poll 0. *)
Lemma low_relayer_balance_blames_creator_witness :
  submitMetaTransaction
    (relayer_network bare_status
       (fun body =>
          fst (submit_vote decimal_BigNumber_from
                 (mock_ledger open_poll false 0 (Ok sample_tx))
                 sample_id body [])))
    0 0 voter_address "0x1b2c3d" [] [] =
  (refused
     "Poll creator doesn't have enough funds to cover gas fees for voting.",
   [] ++ [CGetStatus; CPostVote (payload 0 0 voter_address "0x1b2c3d" [])]).
Proof.
  apply (low_relayer_balance_blames_creator decimal_BigNumber_from
           (mock_ledger open_poll false 0 (Ok sample_tx)) sample_id []
           bare_status 0 0 voter_address "0x1b2c3d" [] [] 0 0).
  all: try reflexivity.
  - intros d Hd. injection Hd as <-. reflexivity.
  - intros b Hb. injection Hb as <-. reflexivity.
Defined.

(** X17. End to end, nobody retries a nonce conflict: when the submission of
    a posted vote fails with a nonce error, the handler has sent that one
    transaction, the client posts the vote once and shows the relayer's
    "Transaction nonce error. Please try again." *)
Theorem nonce_conflict_reaches_the_voter :
  forall BN L rid hs up pollId candidateId voter signature merkleProof h
         ids h1 msg,
    http_ok (st_status up) = true -> st_success up = true ->
    check_eligibility BN L
      (payload pollId candidateId voter signature merkleProof) hs =
      (inr ids, h1) ->
    metaVote_call L (payload pollId candidateId voter signature merkleProof)
      (fst ids) (snd ids) original_options h1 = Throw msg ->
    includes msg "nonce" = true ->
    includes msg "Bad signature" = false ->
    includes msg "Already voted" = false ->
    includes msg "Insufficient relayer funds" = false ->
    includes msg "doesn't have enough funds" = false ->
    includes msg "insufficient funds" = false ->
    submitMetaTransaction
      (relayer_network up (fun body => fst (submit_vote BN L rid body hs)))
      pollId candidateId voter signature merkleProof h =
    (refused "Transaction nonce error. Please try again.",
     h ++ [CGetStatus;
           CPostVote
             (payload pollId candidateId voter signature merkleProof)]) /\
    snd (submit_vote BN L rid
           (payload pollId candidateId voter signature merkleProof) hs) =
    h1 ++ [metaVote_event
             (payload pollId candidateId voter signature merkleProof)
             (fst ids) (snd ids) original_options].
Proof.
  intros BN L rid hs up pid cid v s m h ids h1 msg Hok Hsucc He Hm
         Hn H1 H2 H3 H4 H5.
  rewrite (answered_once _ pid cid v s m h
             (fst (submit_vote BN L rid (payload pid cid v s m) hs)));
    [| unfold checkRelayerServiceStatus, relayer_network; cbn;
       rewrite Hok, Hsucc; reflexivity
     | reflexivity].
  rewrite (submit_vote_submission_error BN L rid _ hs ids h1 msg He Hm).
  unfold submission_error. rewrite H1, H2, H3, H4, H5, Hn.
  split; reflexivity.
Qed.

(** X17 (instance): the ledger answers "nonce has already been used". *)
Lemma nonce_conflict_reaches_the_voter_witness :
  fst (submitMetaTransaction
         (relayer_network bare_status
            (fun body =>
               fst (submit_vote decimal_BigNumber_from
                      (mock_ledger open_poll false (10 ^ 18)
                         (Throw "nonce has already been used"))
                      sample_id body [])))
         1 0 voter_address "0x1b2c3d" [] []) =
  refused "Transaction nonce error. Please try again.".
Proof.
  refine (f_equal fst (proj1 (nonce_conflict_reaches_the_voter
    decimal_BigNumber_from
    (mock_ledger open_poll false (10 ^ 18)
       (Throw "nonce has already been used"))
    sample_id [] bare_status 1 0 voter_address "0x1b2c3d" [] [] (1, 0)
    [EGetPollDetails 1; EHasVoted 1 (JString voter_address);
     EGetBalance relayer_address]
    "nonce has already been used" _ _ _ _ _ _ _ _ _ _))).
  all: vm_compute; reflexivity.
Defined.

(** ** The probes *)

(** X18. The client's pre-check looks at reachability only: answered by
    [/status], it passes exactly when the relayer is initialised and both of
    its reads succeed, whatever they return; so it passes for a relayer that
    is not authorized or has no funds. *)
Theorem precheck_ignores_authorization :
  forall formatEther node hp N h,
    fetch_status N h = Answered (fst (status_endpoint formatEther node hp)) ->
    (checkRelayerServiceStatus N h = true <->
     exists nd authorized balance,
       node = Some nd /\
       isAuthorizedRelayer nd hp (node_address nd) = Ok authorized /\
       node_getBalance nd (hp ++ [PIsAuthorizedRelayer (node_address nd)])
                       (node_address nd) = Ok balance).
Proof.
  intros fe node hp N h Hf. unfold checkRelayerServiceStatus.
  rewrite Hf. unfold status_endpoint.
  destruct node as [nd|]; cbn [fst].
  - destruct (isAuthorizedRelayer nd hp (node_address nd)) as [a|ma] eqn:Ha.
    + destruct (node_getBalance nd _ (node_address nd)) as [b|mb] eqn:Hb;
        cbn.
      * split; [intros _|reflexivity].
        exists nd, a, b. repeat split; assumption.
      * split; [discriminate|].
        intros (nd' & a' & b' & Hn & _ & Hb').
        injection Hn as <-. congruence.
    + cbn. split; [discriminate|].
      intros (nd' & a' & b' & Hn & Ha' & _).
      injection Hn as <-. congruence.
  - cbn. split; [discriminate|].
    intros (nd' & a' & b' & Hn & _). discriminate.
Qed.

(** X18 (instance): a relayer that is not authorized and has no funds. *)
Lemma precheck_ignores_authorization_witness :
  checkRelayerServiceStatus bare_network [] = true.
Proof.
  apply (proj2 (precheck_ignores_authorization (fun _ => "0.0")
                  (Some bare_node) [] bare_network [] eq_refl)).
  exists bare_node, false, 0. repeat split.
Defined.

(** X19. The two funds verdicts can disagree. [/wallet-info] says
    [hasEnoughFunds] when the balance exceeds 600000 gas at the current gas
    price; [/submit-vote] wants 40000000000000000 wei. For the same balance
    between the two, [/wallet-info] reports enough funds and a vote that
    passes the earlier checks is refused for lack of funds. *)
Theorem wallet_info_funds_disagree :
  forall formatEther formatGwei nd hp nonce network gasPrice authorized
         balance BN L rid req h p c,
    node_getBalance nd hp (node_address nd) = Ok balance ->
    getTransactionCount nd (hp ++ [PGetBalance (node_address nd)])
                        (node_address nd) = Ok nonce ->
    getNetwork nd (hp ++ [PGetBalance (node_address nd);
                          PGetTransactionCount (node_address nd)])
      = Ok network ->
    getGasPrice nd (hp ++ [PGetBalance (node_address nd);
                           PGetTransactionCount (node_address nd);
                           PGetNetwork]) = Ok gasPrice ->
    isAuthorizedRelayer nd
      (hp ++ [PGetBalance (node_address nd);
              PGetTransactionCount (node_address nd);
              PGetNetwork; PGetGasPrice]) (node_address nd)
      = Ok authorized ->
    600000 * gasPrice < balance -> balance < 40000000000000000 ->
    missing_required req = false ->
    BN (pollId req) = Ok p -> BN (candidateId req) = Ok c ->
    (forall d, getPollDetails L h p = Ok d -> c < candidateCount d) ->
    hasVoted L (h ++ [EGetPollDetails p]) p (voter req) = Ok false ->
    getBalance L (h ++ [EGetPollDetails p; EHasVoted p (voter req)])
               (wallet_address L) = Ok balance ->
    (exists info hp',
       wallet_info formatEther formatGwei (Some nd) hp =
       (200, inr info, hp') /\
       wi_hasEnoughFunds info = true) /\
    fst (submit_vote BN L rid req h) = relayer_underfunded.
Proof.
  intros fe fg nd hp nonce network g auth b BN L rid req h p c
         Hb Hn Hnet Hg Ha Hlow Hhigh Hm Hp Hc Hd Hv Hbal.
  split.
  - unfold wallet_info. rewrite Hb.
    repeat rewrite <- app_assoc. cbn [app].
    rewrite Hn, Hnet, Hg, Ha.
    eexists. eexists. split; [reflexivity|].
    cbn [wi_hasEnoughFunds]. apply Z.ltb_lt. lia.
  - assert (He : check_eligibility BN L req h =
                 (inl relayer_underfunded,
                  h ++ eligibility_reads L p (voter req))).
    { apply (check_eligibility_low_balance BN L req h p c Hm Hp Hc Hd Hv).
      intros b' Hb'. rewrite Hbal in Hb'. injection Hb' as <-.
      exact Hhigh. }
    destruct (submit_vote_stopped BN L rid req h relayer_underfunded)
      as [Heq _]; [rewrite He; reflexivity|].
    rewrite Heq. reflexivity.
Qed.

(** X19 (instance): 0.03 units of currency at a gas price of 30 gwei. *)
Lemma wallet_info_funds_disagree_witness :
  fst (submit_vote numeric_BigNumber_from
         (mock_ledger open_poll false 30000000000000000 (Ok sample_tx))
         sample_id vote_request []) = relayer_underfunded.
Proof.
  refine (proj2 (wallet_info_funds_disagree (fun _ => "0.03")
    (fun _ => "30.0")
    (mkNode relayer_address (fun _ _ => Ok true)
       (fun _ _ => Ok 30000000000000000) (fun _ _ => Ok 7)
       (fun _ => Ok ("matic", 137)) (fun _ => Ok (gwei 30)))
    [] 7 ("matic", 137) (gwei 30) true 30000000000000000
    numeric_BigNumber_from
    (mock_ledger open_poll false 30000000000000000 (Ok sample_tx))
    sample_id vote_request [] 1 0 _ _ _ _ _ _ _ _ _ _ _ _ _)).
  all: try reflexivity.
  intros d Hd. injection Hd as <-. reflexivity.
Defined.

Lemma makeRequest_unreachable N body pollId candidateId retryCount h :
  (forall h', exists name msg,
      fetch_submit N h' body = Failed name msg /\
      String.eqb name "AbortError" = false) ->
  exists name msg,
    String.eqb name "AbortError" = false /\
    makeRequest N body pollId candidateId retryCount h =
    (inr (name, msg),
     h ++ match retryCount with
          | 0%nat => [CPostVote body; CSleep 2000; CPostVote body;
                      CSleep 4000; CPostVote body]
          | 1%nat => [CPostVote body; CSleep 4000; CPostVote body]
          | _ => [CPostVote body]
          end).
Proof.
  funelim (makeRequest N body pollId candidateId retryCount h);
    intros Hdown;
    try match goal with
        | IH : _ -> exists _ _, _ |- _ =>
            destruct (IH Hdown) as (name' & msg' & Hna & Hrun);
            exists name', msg'; split; [exact Hna|];
            rewrite Hrun, <- app_assoc;
            unfold maxRetries in *;
            destruct retryCount as [|[|k]];
            [reflexivity | reflexivity | lia]
        end;
    match goal with
    | Hq : fetch_submit _ _ _ = _ |- _ =>
        destruct (Hdown h) as (name' & msg' & Hf & Hna); rewrite Hq in Hf
    end;
    try discriminate;
    injection Hf as <- <-;
    try congruence.
  exists name, msg. split; [exact Hna|].
  unfold maxRetries in *. destruct retryCount as [|[|k]]; [lia|lia|].
  reflexivity.
Qed.

(** X20. When the status pre-check passes and every post then fails on the
    network (with any error but an abort), the client posts the vote three
    times, pausing 2 and then 4 seconds, and reports a failure. *)
Theorem unreachable_relayer_three_attempts :
  forall N pollId candidateId voter signature merkleProof h,
    checkRelayerServiceStatus N h = true ->
    (forall h', exists name msg,
        fetch_submit N h'
          (payload pollId candidateId voter signature merkleProof) =
        Failed name msg /\
        String.eqb name "AbortError" = false) ->
    snd (submitMetaTransaction N pollId candidateId voter signature
           merkleProof h) =
    h ++ [CGetStatus;
          CPostVote (payload pollId candidateId voter signature merkleProof);
          CSleep 2000;
          CPostVote (payload pollId candidateId voter signature merkleProof);
          CSleep 4000;
          CPostVote (payload pollId candidateId voter signature merkleProof)]
    /\
    c_success (fst (submitMetaTransaction N pollId candidateId voter
                      signature merkleProof h)) = false.
Proof.
  intros N pid cid v s m h Hup Hdown. unfold submitMetaTransaction.
  rewrite Hup.
  destruct (makeRequest_unreachable N (payload pid cid v s m) pid cid 0
              (h ++ [CGetStatus]) Hdown) as (name & msg & Hna & ->).
  cbn [fst snd]. split; [rewrite <- app_assoc; reflexivity|].
  unfold explain_error. rewrite Hna.
  repeat match goal with
         | |- context [if ?b then _ else _] => destruct b
         end; reflexivity.
Qed.

(** X20 (instance): the relayer answers [/status] and then cannot be
    reached. *)
Lemma unreachable_relayer_three_attempts_witness :
  c_success (fst (submitMetaTransaction bare_network 1 0 voter_address
                    "0x1b2c3d" [] [])) = false.
Proof.
  refine (proj2 (unreachable_relayer_three_attempts bare_network 1 0
                   voter_address "0x1b2c3d" [] [] eq_refl _)).
  intros h'. exists "TypeError", "Failed to fetch". split; reflexivity.
Defined.
